(** * ClaudeStack: the router and the agent runner

    A shallow embedding of [router.py] (class [ClaudeStackRouter]) and of
    [agents/agent_runner.py] (class [ClaudeStackAgent]), and the properties of
    the routing/dispatch subsystem proved about them.

    Modelling conventions.
    - Text is a [string] of 8-bit characters.  The [str] methods the program
      uses ([strip], [lower], [title], [len]) are reproduced on the ASCII
      range, and a text-mode read decodes as the identity up to the newline
      translation.  This is what Python does on ASCII text and on no other:
      a byte above 127 may fail to decode, and the characters it encodes
      may be white space or cased letters of Unicode.  The statements that
      run a read, a [strip], a [lower] or a [len] on text from outside
      therefore carry the hypothesis [ascii_text] on that text (on a file:
      [ascii_file]; on the answers of the service: [ascii_client]).
    - The file system is a finite map from paths (relative to the base
      directory) to file contents.  Directories are implicit: the program
      creates [inbox/], [outbox/], [logs/], [config/] and [prompts/] before
      it writes into them, so that a write succeeds when the file name put
      after the directory is a single path component.  The statements that
      write a file named after an agent carry the hypothesis [plain_name] on
      that agent ([plain_targets] on the agents of the routing rules).
      Paths are told apart as strings, as a case-sensitive file system does.
    - The program's effects (file reads and writes, clock reads, start-up
      failures) are threaded through a small state-and-exception monad [io].
      What the program prints is not part of the state; the terminal is
      taken to accept it.
    - What lies outside the repository is taken as a parameter: the digest
      [hashlib.md5(..).hexdigest()], the rendering of clock readings, and the
      Anthropic client, which is an oracle answering either a text or an
      exception message.  The theorems hold for every such outside; the
      concrete runs at the end use MD5 itself. *)

From Stdlib Require Import Ascii String NArith.
From stdpp Require Import base option list gmap strings pretty.

Local Open Scope string_scope.

(** ** Python [str] operations, on ASCII *)

Module Text.

Definition code (c : ascii) : nat := nat_of_ascii c.

Definition between (lo hi : nat) (c : ascii) : bool :=
  Nat.leb lo (code c) && Nat.leb (code c) hi.

(** [str.isspace] on one character: TAB, LF, VT, FF, CR, FS, GS, RS, US
    and the space. *)
Definition isspace (c : ascii) : bool := between 9 13 c || between 28 32 c.

Definition isupper (c : ascii) : bool := between 65 90 c.
Definition islower (c : ascii) : bool := between 97 122 c.

Definition to_lower (c : ascii) : ascii :=
  if isupper c then ascii_of_nat (code c + 32) else c.
Definition to_upper (c : ascii) : ascii :=
  if islower c then ascii_of_nat (code c - 32) else c.

Fixpoint lstrip (s : string) : string :=
  match s with
  | EmptyString => EmptyString
  | String c s' => if isspace c then lstrip s' else s
  end.

Fixpoint rstrip (s : string) : string :=
  match s with
  | EmptyString => EmptyString
  | String c s' =>
      match rstrip s' with
      | EmptyString => if isspace c then EmptyString else String c EmptyString
      | t => String c t
      end
  end.

(** [s.strip()] *)
Definition strip (s : string) : string := rstrip (lstrip s).

(** [s.lower()] *)
Fixpoint lower (s : string) : string :=
  match s with
  | EmptyString => EmptyString
  | String c s' => String (to_lower c) (lower s')
  end.

(** [s.title()]: the first cased character of every run of letters is
    upper-cased, the others are lower-cased. *)
Fixpoint title_from (previous_is_cased : bool) (s : string) : string :=
  match s with
  | EmptyString => EmptyString
  | String c s' =>
      if isupper c || islower c
      then String (if previous_is_cased then to_lower c else to_upper c)
                  (title_from true s')
      else String c (title_from false s')
  end.
Definition title (s : string) : string := title_from false s.

(** [len(s)], and its rendering inside an f-string.  The bytes are counted,
    which are the characters of an ASCII text. *)
Definition len (s : string) : nat := String.length s.
Definition str_of_nat (n : nat) : string := pretty n.

(** The newline translation of [open(path, 'r').read()]: CR LF and a lone
    CR are both read as LF. *)
Fixpoint read_text (raw : string) : string :=
  match raw with
  | EmptyString => EmptyString
  | String c rest =>
      if Ascii.eqb c "013"%char
      then match rest with
           | String d rest' =>
               if Ascii.eqb d "010"%char
               then String "010"%char (read_text rest')
               else String "010"%char (read_text rest)
           | EmptyString => String "010"%char EmptyString
           end
      else String c (read_text rest)
  end.

(** [not s] for a string. *)
Definition is_empty (s : string) : bool :=
  match s with EmptyString => true | _ => false end.

Definition nl : string := String "010"%char EmptyString.
Definition dq : string := String "034"%char EmptyString.

End Text.

(** ** The world outside the process *)

(** Paths are relative to the base directory of the installation. *)
Record world := World {
  files : gmap string string;   (* path -> raw content *)
  clock : nat                   (* how many times the clock was read *)
}.

(** What the Python libraries compute, taken as given. *)
Class Outside := {
  (* [hashlib.md5(content).hexdigest()] *)
  md5_hexdigest : string -> string;
  (* [datetime.now().strftime("%Y-%m-%d %H:%M:%S")] at the n-th clock reading *)
  strftime : nat -> string;
  (* [f"{t1 - t0:.2f}"] for the readings number n0 and n1 of [time.time()] *)
  seconds_2f : nat -> nat -> string
}.

(** [client.messages.create(model=, max_tokens=, messages=[user prompt])]
    followed by [response.content[0].text]: the text, or the [str(e)] of the
    exception raised on the way. *)
Definition client := string -> nat -> string -> string + string.

(** ** Effects: state and exceptions *)

Inductive exn :=
| ValueError (msg : string)
| JSONDecodeError
| APIError (msg : string).

(** [str(e)].  Of a [json.JSONDecodeError] only the head of the message is
    given; Python continues it with the position of the error. *)
Definition str_of_exn (e : exn) : string :=
  match e with
  | ValueError msg => msg
  | JSONDecodeError => "Expecting value"
  | APIError msg => msg
  end.

Inductive outcome (A : Type) :=
| Ret (a : A) (w : world)
| Raise (e : exn) (w : world).
Arguments Ret {A} a w.
Arguments Raise {A} e w.

Definition io (A : Type) : Type := world -> outcome A.

Definition raise {A} (e : exn) : io A := fun w => Raise e w.

#[global] Instance io_ret : MRet io := fun A a w => Ret a w.
#[global] Instance io_bind : MBind io := fun A B k m w =>
  match m w with
  | Ret a w' => k a w'
  | Raise e w' => Raise e w'
  end.

(** [try: body  except Exception as e: handler(e)] *)
Definition try_except {A} (body : io A) (handler : exn -> io A) : io A :=
  fun w => match body w with
           | Ret a w' => Ret a w'
           | Raise e w' => handler e w'
           end.

(** [path.exists()] *)
Definition exists_file (path : string) : io bool :=
  fun w => Ret (bool_decide (is_Some (files w !! path))) w.

(** [open(path, 'rb').read()]; the callers test [exists()] first. *)
Definition read_bytes (path : string) : io string :=
  fun w => Ret (default "" (files w !! path)) w.

(** [open(path, 'r').read()]: the newline translation of text mode, on
    content that decodes to itself ([ascii_text] below). *)
Definition read_file (path : string) : io string :=
  fun w => Ret (Text.read_text (default "" (files w !! path))) w.

(** [open(path, 'w').write(content)], into a directory that exists (the
    program creates its directories first; [plain_name] below keeps a file
    named after an agent inside them). *)
Definition write_file (path content : string) : io unit :=
  fun w => Ret () (World (<[path := content]> (files w)) (clock w)).

(** [open(path, 'a').write(content)] *)
Definition append_file (path content : string) : io unit :=
  fun w => Ret () (World (<[path := default "" (files w !! path) ++ content]> (files w))
                         (clock w)).

(** One reading of the clock ([datetime.now()] or [time.time()]). *)
Definition tick : io nat :=
  fun w => Ret (clock w) (World (files w) (S (clock w))).

Definition now `{Outside} : io string := n ← tick; mret (strftime n).

Definition call (c : client) (model : string) (max_tokens : nat) (prompt : string)
  : io string :=
  match c model max_tokens prompt with
  | inl text => mret text
  | inr msg => raise (APIError msg)
  end.

(** ** The [json] module, for objects whose values are strings

    The two configuration files are objects from strings to strings; this
    is the shape the program writes and the only one it can use.  A file of
    another shape is reported as undecodable. *)

Module Json.

Definition bs : string := String "092"%char EmptyString.

Definition hex_digit (n : nat) : ascii :=
  if Nat.ltb n 10 then ascii_of_nat (48 + n) else ascii_of_nat (87 + n).

(** [json.encoder.py_encode_basestring_ascii], one character. *)
Definition escape_char (c : ascii) : string :=
  let n := nat_of_ascii c in
  if Nat.eqb n 34 then bs ++ Text.dq
  else if Nat.eqb n 92 then bs ++ bs
  else if Nat.eqb n 10 then bs ++ "n"
  else if Nat.eqb n 13 then bs ++ "r"
  else if Nat.eqb n 9 then bs ++ "t"
  else if Nat.eqb n 8 then bs ++ "b"
  else if Nat.eqb n 12 then bs ++ "f"
  else if Nat.leb 32 n && Nat.leb n 126 then String c EmptyString
  else bs ++ "u00" ++ String (hex_digit (n / 16)) (String (hex_digit (n mod 16)) EmptyString).

Fixpoint escape (s : string) : string :=
  match s with
  | EmptyString => EmptyString
  | String c s' => escape_char c ++ escape s'
  end.

Definition encode_string (s : string) : string := Text.dq ++ escape s ++ Text.dq.

Fixpoint dump_items (items : list (string * string)) : string :=
  match items with
  | [] => ""
  | (k, v) :: rest =>
      "  " ++ encode_string k ++ ": " ++ encode_string v ++
      match rest with
      | [] => ""
      | _ => "," ++ Text.nl ++ dump_items rest
      end
  end.

(** [json.dump(d, f, indent=2)] for a dict given by its items in insertion
    order. *)
Definition dump_indent2 (items : list (string * string)) : string :=
  match items with
  | [] => "{}"
  | _ => "{" ++ Text.nl ++ dump_items items ++ Text.nl ++ "}"
  end.

Definition is_ws (c : ascii) : bool :=
  let n := nat_of_ascii c in
  Nat.eqb n 32 || Nat.eqb n 9 || Nat.eqb n 10 || Nat.eqb n 13.

Fixpoint skip_ws (s : string) : string :=
  match s with
  | EmptyString => EmptyString
  | String c s' => if is_ws c then skip_ws s' else s
  end.

Definition hex_value (c : ascii) : option nat :=
  let n := nat_of_ascii c in
  if Text.between 48 57 c then Some (n - 48)
  else if Text.between 97 102 c then Some (n - 87)
  else if Text.between 65 70 c then Some (n - 55)
  else None.

Definition unescape (c : ascii) : option ascii :=
  let n := nat_of_ascii c in
  if Nat.eqb n 34 then Some "034"%char
  else if Nat.eqb n 92 then Some "092"%char
  else if Nat.eqb n 47 then Some "/"%char
  else if Nat.eqb n 98 then Some "008"%char
  else if Nat.eqb n 102 then Some "012"%char
  else if Nat.eqb n 110 then Some "010"%char
  else if Nat.eqb n 114 then Some "013"%char
  else if Nat.eqb n 116 then Some "009"%char
  else None.

(** The body of a string literal, after its opening quote: the decoded
    text and what follows the closing quote. *)
Fixpoint scan_string (s : string) : option (string * string) :=
  match s with
  | EmptyString => None
  | String c s' =>
      if Nat.eqb (nat_of_ascii c) 34 then Some (EmptyString, s')
      else if Nat.eqb (nat_of_ascii c) 92 then
        match s' with
        | String e s'' =>
            match unescape e with
            | Some ch =>
                match scan_string s'' with
                | Some (t, rest) => Some (String ch t, rest)
                | None => None
                end
            | None =>
                match s'' with
                | String h1 (String h2 (String h3 (String h4 s5))) =>
                    if Ascii.eqb e "u" then
                      match hex_value h1, hex_value h2, hex_value h3, hex_value h4 with
                      | Some 0, Some 0, Some d3, Some d4 =>
                          match scan_string s5 with
                          | Some (t, rest) => Some (String (ascii_of_nat (16 * d3 + d4)) t, rest)
                          | None => None
                          end
                      | _, _, _, _ => None
                      end
                    else None
                | _ => None
                end
            end
        | EmptyString => None
        end
      else if Nat.ltb (nat_of_ascii c) 32 then None
      else
        match scan_string s' with
        | Some (t, rest) => Some (String c t, rest)
        | None => None
        end
  end.

Definition expect (c : ascii) (s : string) : option string :=
  match s with
  | String d s' => if Ascii.eqb c d then Some s' else None
  | EmptyString => None
  end.

(** One member, a key and its string value; what is left has its leading
    blanks skipped. *)
Definition parse_pair (s : string) : option (string * string * string) :=
  s1 ← expect "034" s;
  '(k, s2) ← scan_string s1;
  s3 ← expect ":" (skip_ws s2);
  s4 ← expect "034" (skip_ws s3);
  '(v, s5) ← scan_string s4;
  Some (k, v, skip_ws s5).

Fixpoint parse_members (fuel : nat) (s : string) (acc : gmap string string)
  : option (gmap string string * string) :=
  match fuel with
  | O => None
  | S fuel' =>
      '(k, v, s1) ← parse_pair s;
      match s1 with
      | String c s2 =>
          if Ascii.eqb c "," then parse_members fuel' (skip_ws s2) (<[k := v]> acc)
          else if Ascii.eqb c "}" then Some (<[k := v]> acc, s2)
          else None
      | EmptyString => None
      end
  end.

(** [json.load(f)]: the dict (a later duplicate of a key wins), or [None]
    for [json.JSONDecodeError]. *)
Definition load (s : string) : option (gmap string string) :=
  s1 ← expect "{" (skip_ws s);
  let s2 := skip_ws s1 in
  '(m, rest) ← match s2 with
               | String "}" s3 => Some (∅, s3)
               | _ => parse_members (String.length s2) s2 ∅
               end;
  if Text.is_empty (skip_ws rest) then Some m else None.

End Json.

(** ** [router.py]: class [ClaudeStackRouter] *)

Module Router.
Section Router.
Context `{Outside}.

Record ClaudeStackRouter := {
  routing_rules : gmap string string;
  last_chat_hash : option string
}.

Definition rules_file : string := "config/routing_rules.json".
Definition chat_file : string := "inbox/chat.txt".
Definition log_file : string := "logs/messages.log".
Definition inbox_file (agent : string) : string := "inbox/" ++ agent ++ ".md".

Definition default_rules : list (string * string) :=
  [ ("feature_request", "planner");
    ("code_question", "helper");
    ("ui_request", "designer");
    ("bug_fix", "coder");
    ("code_review", "reviewer");
    ("testing", "tester");
    ("general", "helper") ].

Definition load_routing_rules : io (gmap string string) :=
  present ← exists_file rules_file;
  if (present : bool) then
    text ← read_file rules_file;
    match Json.load text with
    | Some rules => mret rules
    | None => raise JSONDecodeError
    end
  else
    write_file rules_file (Json.dump_indent2 default_rules);;
    mret (list_to_map default_rules).

Definition get_file_hash (file_path : string) : io (option string) :=
  present ← exists_file file_path;
  if (present : bool) then
    content ← read_bytes file_path;
    mret (Some (md5_hexdigest content))
  else mret None.

Definition classification_prompt (message : string) : string :=
  "
You are a message classifier for ClaudeStack, a multi-agent AI development framework.

Analyze the following user message and classify it into ONE of these categories:
- feature_request: User wants to build/add a new feature
- code_question: User has questions about existing code or general programming
- ui_request: User wants UI/UX design or frontend work
- bug_fix: User reports a bug or wants something fixed
- code_review: User wants code reviewed
- testing: User wants tests written or testing help
- general: Anything else

User message: " ++ Text.dq ++ message ++ Text.dq ++ "

Respond with ONLY the category name (e.g., " ++ Text.dq ++ "feature_request" ++ Text.dq ++ ").
".

Definition log_message (message : string) : io unit :=
  timestamp ← now;
  append_file log_file ("[" ++ timestamp ++ "] " ++ message ++ Text.nl).

Definition classify_intent (c : client) (self : ClaudeStackRouter) (message : string)
  : io string :=
  try_except
    (text ← call c "claude-3-5-sonnet-20241022" 50 (classification_prompt message);
     let intent := Text.lower (Text.strip text) in
     if bool_decide (is_Some (routing_rules self !! intent))
     then mret intent
     else mret "general")
    (fun e =>
       log_message ("Error classifying intent: " ++ str_of_exn e);;
       mret "general").

Definition routed_content (timestamp intent message : string) : string :=
  "# New Request - " ++ timestamp ++ "

**Intent:** " ++ intent ++ "
**Original Message:**

" ++ message ++ "

---
".

Definition route_message (self : ClaudeStackRouter) (message intent : string)
  : io string :=
  let target_agent := default "helper" (routing_rules self !! intent) in
  let target_file := inbox_file target_agent in
  timestamp ← now;
  write_file target_file (routed_content timestamp intent message);;
  log_message ("[" ++ timestamp ++ "] Routed user query (intent: " ++ intent ++
               ") to " ++ target_agent);;
  mret target_agent.

Definition process_chat_input (c : client) (self : ClaudeStackRouter)
  : io (bool * ClaudeStackRouter) :=
  present ← exists_file chat_file;
  if negb present then mret (false, self) else
  current_hash ← get_file_hash chat_file;
  if bool_decide (current_hash = last_chat_hash self) then mret (false, self) else
  text ← read_file chat_file;
  let message := Text.strip text in
  if Text.is_empty message then mret (false, self) else
  intent ← classify_intent c self message;
  target_agent ← route_message self message intent;
  mret (true, {| routing_rules := routing_rules self;
                 last_chat_hash := current_hash |}).

(** [__init__]: the rules are loaded once, no content has been seen. *)
Definition init : io ClaudeStackRouter :=
  rules ← load_routing_rules;
  mret {| routing_rules := rules; last_chat_hash := None |}.

(** [run]: one polling cycle per element of [clients], the answers the
    service would give during that cycle. *)
Fixpoint run (clients : list client) (self : ClaudeStackRouter)
  : io ClaudeStackRouter :=
  match clients with
  | [] => mret self
  | c :: rest =>
      '(_, self') ← process_chat_input c self;
      run rest self'
  end.

End Router.
End Router.

(** ** [agents/agent_runner.py]: class [ClaudeStackAgent] *)

Module Agent.
Section Agent.
Context `{Outside}.

Record ClaudeStackAgent := {
  agent_name : string;
  model : string;
  prompt_template : string;
  last_input_hash : option string
}.

Definition config_file : string := "config/model_assignments.json".
Definition log_file : string := "logs/messages.log".
Definition prompt_file (name : string) : string := "prompts/" ++ name ++ ".txt".
Definition inbox_file (name : string) : string := "inbox/" ++ name ++ ".md".
Definition outbox_file (name : string) : string := "outbox/" ++ name ++ ".md".

Definition default_assignments : list (string * string) :=
  [ ("chat", "claude-3-5-sonnet-20241022");
    ("planner", "claude-3-opus-20240229");
    ("tasker", "claude-3-5-sonnet-20241022");
    ("coder", "claude-3-5-sonnet-20241022");
    ("reviewer", "claude-3-opus-20240229");
    ("tester", "claude-3-5-sonnet-20241022");
    ("designer", "claude-3-opus-20240229");
    ("frontend", "claude-3-5-sonnet-20241022");
    ("helper", "claude-3-5-sonnet-20241022") ].

(** The model of an agent that the assignments do not mention. *)
Definition fallback_model : string := "claude-3-5-sonnet-20241022".

Definition load_model_assignment (name : string) : io string :=
  present ← exists_file config_file;
  assignments ←
    (if (present : bool) then
       text ← read_file config_file;
       match Json.load text with
       | Some assignments => mret assignments
       | None => raise JSONDecodeError
       end
     else
       write_file config_file (Json.dump_indent2 default_assignments);;
       mret (list_to_map default_assignments));
  mret (default fallback_model ((assignments : gmap string string) !! name)).

(** The built-in personas of [get_default_prompt]. *)
Definition prompts : list (string * string) :=
  [ ("chat", "
You are Claude-Chat, the main interface for ClaudeStack.

Your role:
- Receive user input and understand their intent
- Provide helpful responses when appropriate
- The router will handle directing complex requests to other agents

Be conversational, helpful, and professional. If a user asks something that would be better handled by a specialist agent, acknowledge their request and let them know it's being routed appropriately.
");
    ("planner", "
You are Claude-Planner, an expert in breaking down software feature requests into clear technical plans.

Input: A user request for a feature or system.
Output: A markdown plan with these sections:
- 📌 **Objective**: Clear statement of what needs to be built
- 🛠 **Implementation Plan**: Detailed bullet points covering:
  - Architecture decisions
  - Key components needed
  - Technology choices
  - Integration points
  - Potential challenges

Be precise, include system boundaries, and consider scalability and maintainability.
");
    ("tasker", "
You are Claude-Tasker. Your job is to convert planning docs into atomic developer tasks.

Input: Claude-Planner's implementation plan.
Output: Markdown task list, formatted as:
- [ ] Task Name - brief description (estimated time)

Rules:
- Each task should be completable in < 30 minutes ideally
- Tasks should be specific and actionable
- Include setup, implementation, and testing tasks
- Order tasks logically (dependencies first)
- Be clear about what " ++ Text.dq ++ "done" ++ Text.dq ++ " looks like for each task
");
    ("coder", "
You are Claude-Coder. You write clean, efficient, production-ready code based on task descriptions.

Input: One specific development task.
Output: Complete code implementation with:
- Well-commented, readable code
- Error handling where appropriate
- Following best practices for the language/framework
- Include any necessary imports/dependencies

Focus on code quality, security, and maintainability. If the task is unclear, ask for clarification.
");
    ("reviewer", "
You are Claude-Reviewer. You provide thorough, constructive code reviews.

Input: Code implementation from Claude-Coder.
Output: Detailed review covering:
- ✅ **Strengths**: What's done well
- ⚠️ **Issues**: Problems that need fixing (security, bugs, performance)
- 💡 **Suggestions**: Improvements for readability, maintainability
- 🎯 **Verdict**: APPROVED / NEEDS_CHANGES / MAJOR_REVISION

Be thorough but constructive. Focus on code quality, security, performance, and best practices.
");
    ("tester", "
You are Claude-Tester. You write comprehensive tests and identify potential issues.

Input: Code implementation or feature description.
Output: Test suite including:
- Unit tests for individual functions
- Integration tests for component interactions
- Edge case testing
- Error condition testing
- Performance considerations

Use appropriate testing frameworks and follow testing best practices. Include both positive and negative test cases.
");
    ("designer", "
You are Claude-Designer, a UI/UX architect focused on user experience.

Input: Feature requirements or user interface needs.
Output: Design specification including:
- 🎨 **User Experience Flow**: Step-by-step user journey
- 📱 **Interface Design**: Layout and component descriptions
- 🎯 **Key Interactions**: How users will interact with the feature
- 📋 **Component List**: Specific UI components needed
- 💡 **Design Principles**: Accessibility, usability considerations

Keep designs simple, user-friendly, and implementable. Focus on solving user problems effectively.
");
    ("frontend", "
You are Claude-Frontend. You implement UI components based on design specifications.

Input: UI component descriptions, wireframes, or design specs.
Output: Frontend code including:
- HTML structure
- CSS styling (responsive design)
- JavaScript functionality
- Framework-specific code (React, Vue, etc.) if specified

Create clean, accessible, and responsive interfaces. Follow modern web standards and best practices.
");
    ("helper", "
You are Claude-Helper, a general-purpose coding assistant.

Your role:
- Answer questions about code architecture and logic
- Explain complex programming concepts
- Provide guidance on tools and technologies
- Help debug issues
- Offer best practice recommendations

Be helpful, educational, and provide practical advice. Include examples when helpful.
") ].

(** The persona of an agent that [prompts] does not mention. *)
Definition generic_prompt (name : string) : string :=
  "
You are Claude-" ++ Text.title name ++ ", a specialized AI assistant.

Please provide helpful and accurate responses based on your role.
".

Definition get_default_prompt (name : string) : string :=
  default (generic_prompt name) ((list_to_map prompts : gmap string string) !! name).

Definition load_prompt_template (name : string) : io string :=
  present ← exists_file (prompt_file name);
  if (present : bool) then
    text ← read_file (prompt_file name);
    mret (Text.strip text)
  else
    let default_prompt := get_default_prompt name in
    write_file (prompt_file name) default_prompt;;
    mret default_prompt.

(** [__init__], given the value of the environment variable
    [ANTHROPIC_API_KEY]. *)
Definition init (api_key : option string) (name : string) : io ClaudeStackAgent :=
  if Text.is_empty (default "" api_key) then
    raise (ValueError "ANTHROPIC_API_KEY environment variable not set")
  else
    model ← load_model_assignment name;
    prompt_template ← load_prompt_template name;
    mret {| agent_name := name; model := model;
            prompt_template := prompt_template; last_input_hash := None |}.

Definition get_file_hash (file_path : string) : io (option string) :=
  present ← exists_file file_path;
  if (present : bool) then
    content ← read_bytes file_path;
    mret (Some (md5_hexdigest content))
  else mret None.

Definition log_entry (self : ClaudeStackAgent)
    (timestamp processing_time input_text output_text : string) : string :=
  "
[" ++ timestamp ++ "] Claude-" ++ Text.title (agent_name self) ++ " processed request
Processing time: " ++ processing_time ++ "s
Model: " ++ model self ++ "
Input length: " ++ Text.str_of_nat (Text.len input_text) ++ " chars
Output length: " ++ Text.str_of_nat (Text.len output_text) ++ " chars
---
".

Definition log_interaction (self : ClaudeStackAgent)
    (input_text output_text processing_time : string) : io unit :=
  timestamp ← now;
  append_file log_file (log_entry self timestamp processing_time input_text output_text).

Definition full_prompt (self : ClaudeStackAgent) (input_text : string) : string :=
  prompt_template self ++ "

---

User Input:
" ++ input_text.

Definition process_input (c : client) (self : ClaudeStackAgent) (input_text : string)
  : io string :=
  start_time ← tick;
  try_except
    (output_text ← call c (model self) 4000 (full_prompt self input_text);
     end_time ← tick;
     log_interaction self input_text output_text (seconds_2f start_time end_time);;
     mret output_text)
    (fun e => mret ("Error processing request: " ++ str_of_exn e)).

Definition output_content (self : ClaudeStackAgent) (timestamp output : string) : string :=
  "# Claude-" ++ Text.title (agent_name self) ++ " Output - " ++ timestamp ++ "

" ++ output ++ "

---
*Generated by ClaudeStack Agent Runner*
".

Definition check_for_input (c : client) (self : ClaudeStackAgent)
  : io (bool * ClaudeStackAgent) :=
  present ← exists_file (inbox_file (agent_name self));
  if negb present then mret (false, self) else
  current_hash ← get_file_hash (inbox_file (agent_name self));
  if bool_decide (current_hash = last_input_hash self)
     || bool_decide (current_hash = None)
  then mret (false, self) else
  text ← read_file (inbox_file (agent_name self));
  let input_text := Text.strip text in
  if Text.is_empty input_text then mret (false, self) else
  output ← process_input c self input_text;
  timestamp ← now;
  write_file (outbox_file (agent_name self)) (output_content self timestamp output);;
  mret (true, {| agent_name := agent_name self; model := model self;
                 prompt_template := prompt_template self;
                 last_input_hash := current_hash |}).

(** [run]: one polling cycle per element of [clients]. *)
Fixpoint run (clients : list client) (self : ClaudeStackAgent)
  : io ClaudeStackAgent :=
  match clients with
  | [] => mret self
  | c :: rest =>
      '(_, self') ← check_for_input c self;
      run rest self'
  end.

(** How [main] ends when the polling loop is given [clients] cycles. *)
Inductive ending :=
| Stopped (self : ClaudeStackAgent)
| ConfigurationError (msg : string)   (* a [ValueError]; exit status 1 *)
| UnexpectedError (msg : string).     (* another exception; exit status 1 *)

(** [isinstance(e, ValueError)]: [json.JSONDecodeError] is a subclass of
    [ValueError]. *)
Definition is_value_error (e : exn) : bool :=
  match e with
  | ValueError _ => true
  | JSONDecodeError => true
  | APIError _ => false
  end.

Definition main (api_key : option string) (name : string) (clients : list client)
  : world -> ending * world :=
  fun w =>
    match (agent ← init api_key name; run clients agent) w with
    | Ret self w' => (Stopped self, w')
    | Raise e w' =>
        if is_value_error e
        then (ConfigurationError (str_of_exn e), w')
        else (UnexpectedError (str_of_exn e), w')
    end.

End Agent.
End Agent.

(** ** MD5 (RFC 1321), to run the model on concrete files *)

Module MD5.

Local Open Scope N_scope.

Definition mask32 : N := 4294967295.
Definition add32 (x y : N) : N := N.land (x + y) mask32.
Definition not32 (x : N) : N := N.lxor x mask32.
Definition rotl32 (x : N) (s : N) : N :=
  N.lor (N.land (N.shiftl x s) mask32) (N.shiftr x (32 - s)).

(** [floor(2^32 * abs(sin(i + 1)))] for i = 0 .. 63 *)
Definition K : list N :=
  [ 3614090360; 3905402710; 606105819; 3250441966;
    4118548399; 1200080426; 2821735955; 4249261313;
    1770035416; 2336552879; 4294925233; 2304563134;
    1804603682; 4254626195; 2792965006; 1236535329;
    4129170786; 3225465664; 643717713; 3921069994;
    3593408605; 38016083; 3634488961; 3889429448;
    568446438; 3275163606; 4107603335; 1163531501;
    2850285829; 4243563512; 1735328473; 2368359562;
    4294588738; 2272392833; 1839030562; 4259657740;
    2763975236; 1272893353; 4139469664; 3200236656;
    681279174; 3936430074; 3572445317; 76029189;
    3654602809; 3873151461; 530742520; 3299628645;
    4096336452; 1126891415; 2878612391; 4237533241;
    1700485571; 2399980690; 4293915773; 2240044497;
    1873313359; 4264355552; 2734768916; 1309151649;
    4149444226; 3174756917; 718787259; 3951481745 ].

Definition S : list N :=
  [ 7; 12; 17; 22; 7; 12; 17; 22; 7; 12; 17; 22; 7; 12; 17; 22;
    5; 9; 14; 20; 5; 9; 14; 20; 5; 9; 14; 20; 5; 9; 14; 20;
    4; 11; 16; 23; 4; 11; 16; 23; 4; 11; 16; 23; 4; 11; 16; 23;
    6; 10; 15; 21; 6; 10; 15; 21; 6; 10; 15; 21; 6; 10; 15; 21 ].

Fixpoint bytes_of_string (s : string) : list N :=
  match s with
  | EmptyString => []
  | String c s' => N_of_ascii c :: bytes_of_string s'
  end.

(** [n] bytes of [x], least significant first. *)
Fixpoint le_bytes (n : nat) (x : N) : list N :=
  match n with
  | O => []
  | Datatypes.S n' => N.land x 255 :: le_bytes n' (N.shiftr x 8)
  end.

(** The message followed by the bit 1, zeros up to 56 modulo 64 bytes, and
    its length in bits on 8 bytes. *)
Definition pad (msg : list N) : list N :=
  let len := N.of_nat (length msg) in
  let zeros := N.to_nat ((55 + 64 - len mod 64) mod 64) in
  msg ++ 128 :: repeat 0 zeros ++ le_bytes 8 (8 * len).

Fixpoint words (n : nat) (bytes : list N) : list N :=
  match n with
  | O => []
  | Datatypes.S n' =>
      match bytes with
      | b0 :: b1 :: b2 :: b3 :: rest =>
          (b0 + 256 * b1 + 65536 * b2 + 16777216 * b3) :: words n' rest
      | _ => []
      end
  end.

Definition state : Type := N * N * N * N.

Definition round (M : list N) (i : nat) (st : state) : state :=
  let '(a, b, c, d) := st in
  let '(f, g) :=
    if Nat.ltb i 16 then (N.lor (N.land b c) (N.land (not32 b) d), i)
    else if Nat.ltb i 32 then
      (N.lor (N.land d b) (N.land (not32 d) c), ((5 * i + 1) mod 16)%nat)
    else if Nat.ltb i 48 then (N.lxor b (N.lxor c d), ((3 * i + 5) mod 16)%nat)
    else (N.lxor c (N.lor b (not32 d)), ((7 * i) mod 16)%nat) in
  let f' := add32 (add32 (add32 f a) (nth i K 0)) (nth g M 0) in
  (d, add32 b (rotl32 f' (nth i S 0)), b, c).

Definition block (st : state) (M : list N) : state :=
  let '(a, b, c, d) := st in
  let '(a', b', c', d') := fold_left (fun s i => round M i s) (seq 0 64) st in
  (add32 a a', add32 b b', add32 c c', add32 d d').

Fixpoint blocks (n : nat) (bytes : list N) (st : state) : state :=
  match n with
  | O => st
  | Datatypes.S n' => blocks n' (drop 64 bytes) (block st (words 16 bytes))
  end.

Definition digest (msg : string) : list N :=
  let bytes := pad (bytes_of_string msg) in
  let '(a, b, c, d) :=
    blocks (length bytes / 64) bytes (1732584193, 4023233417, 2562383102, 271733878) in
  le_bytes 4 a ++ le_bytes 4 b ++ le_bytes 4 c ++ le_bytes 4 d.

Definition hex_of_byte (b : N) : string :=
  String (Json.hex_digit (N.to_nat (b / 16)))
    (String (Json.hex_digit (N.to_nat (b mod 16))) EmptyString).

(** [hashlib.md5(msg).hexdigest()] *)
Definition hexdigest (msg : string) : string :=
  String.concat "" (map hex_of_byte (digest msg)).

End MD5.

(** A concrete outside, to run the model on examples: the MD5 digest, and a
    clock that advances by one second at each reading. *)
Definition two_digits (n : nat) : string :=
  if Nat.ltb n 10 then "0" ++ pretty n else pretty n.

Definition sample_outside : Outside := {|
  md5_hexdigest := MD5.hexdigest;
  strftime := fun n => "2025-01-01 12:00:" ++ two_digits (n mod 60);
  seconds_2f := fun n0 n1 => pretty (n1 - n0) ++ ".00"
|}.

(** ** [launcher.py]: class [ClaudeStackLauncher]

    The launcher starts the router and the agents as processes of their
    own.  What it does is the sequence of its calls to [subprocess.run];
    how each call ends is given by the host. *)

Module Launcher.

(** How [subprocess.run(cmd, check=True)] may fail: the process ends with a
    non-zero status, the program is not found, or the call raises another
    exception (a [PermissionError] or another [OSError], say), which no
    handler of the launcher names. *)
Inductive error := CalledProcessError | FileNotFoundError | OtherError.

Definition command : Type := list string.

(** How the host ends the n-th call of [subprocess.run], given its command
    line: [None] when the process completes with status 0. *)
Definition subprocess : Type := nat -> command -> option error.

(** The calls made so far, the oldest first. *)
Inductive outcome (A : Type) :=
| Returned (a : A) (calls : list command)
| Raised (e : error) (calls : list command).
Arguments Returned {A} a calls.
Arguments Raised {A} e calls.

Definition launching (A : Type) : Type := list command -> outcome A.

#[global] Instance launching_ret : MRet launching := fun A a calls => Returned a calls.
#[global] Instance launching_bind : MBind launching := fun A B k m calls =>
  match m calls with
  | Returned a calls' => k a calls'
  | Raised e calls' => Raised e calls'
  end.

(** [subprocess.run(cmd, check=True)] *)
Definition subprocess_run (sp : subprocess) (cmd : command) : launching unit :=
  fun calls =>
    match sp (length calls) cmd with
    | None => Returned () (calls ++ [cmd])
    | Some e => Raised e (calls ++ [cmd])
    end.

(** [try: body  except <the errors of caught>: handler] *)
Definition try_except {A} (body : launching A) (caught : error -> bool)
    (handler : launching A) : launching A :=
  fun calls =>
    match body calls with
    | Returned a calls' => Returned a calls'
    | Raised e calls' => if caught e then handler calls' else Raised e calls'
    end.

(** [except subprocess.CalledProcessError], and
    [except (subprocess.CalledProcessError, FileNotFoundError)]. *)
Definition only_called_process_error (e : error) : bool :=
  match e with
  | CalledProcessError => true
  | FileNotFoundError => false
  | OtherError => false
  end.
Definition both_errors (e : error) : bool :=
  match e with
  | CalledProcessError => true
  | FileNotFoundError => true
  | OtherError => false
  end.

Record ClaudeStackLauncher := {
  base_dir : string;   (* [str(Path(__file__).parent)] *)
  system : string      (* [platform.system().lower()] *)
}.

Definition default_agents : list string :=
  [ "chat"; "planner"; "tasker"; "coder"; "reviewer"; "tester"; "designer";
    "frontend"; "helper" ].

(** What [check_requirements] looks at. *)
Record requirements := {
  agent_runner_exists : bool;            (* [agents/agent_runner.py] is there *)
  anthropic_api_key : option string      (* [os.getenv("ANTHROPIC_API_KEY")] *)
}.

Definition check_requirements (env : requirements) : bool :=
  if negb (agent_runner_exists env) then false
  else if Text.is_empty (default "" (anthropic_api_key env)) then false
  else true.

Definition terminal_script (self : ClaudeStackLauncher) (agent_name : string) : string :=
  "
        tell application " ++ Text.dq ++ "Terminal" ++ Text.dq ++ "
            do script " ++ Text.dq ++ "cd '" ++ base_dir self ++ "' && python3 agents/agent_runner.py --agent " ++ agent_name ++ Text.dq ++ "
        end tell
        ".

Definition iterm_script (self : ClaudeStackLauncher) (agent_name : string) : string :=
  "
        tell application " ++ Text.dq ++ "iTerm2" ++ Text.dq ++ "
            tell current window
                create tab with default profile
                tell current session
                    write text " ++ Text.dq ++ "cd '" ++ base_dir self ++ "' && python3 agents/agent_runner.py --agent " ++ agent_name ++ Text.dq ++ "
                end tell
            end tell
        end tell
        ".

Definition router_script (self : ClaudeStackLauncher) : string :=
  "
            tell application " ++ Text.dq ++ "Terminal" ++ Text.dq ++ "
                do script " ++ Text.dq ++ "cd '" ++ base_dir self ++ "' && python3 router.py" ++ Text.dq ++ "
            end tell
            ".

Definition launch_macos_terminal (sp : subprocess) (self : ClaudeStackLauncher)
    (agent_name : string) : launching bool :=
  try_except
    (subprocess_run sp ["osascript"; "-e"; terminal_script self agent_name];;
     mret true)
    only_called_process_error
    (mret false).

Definition launch_macos_iterm (sp : subprocess) (self : ClaudeStackLauncher)
    (agent_name : string) : launching bool :=
  try_except
    (subprocess_run sp ["osascript"; "-e"; iterm_script self agent_name];;
     mret true)
    only_called_process_error
    (mret false).

Definition gnome_command (self : ClaudeStackLauncher) (agent_name : string) : command :=
  [ "gnome-terminal"; "--tab"; "--title"; "Claude-" ++ Text.title agent_name;
    "--"; "bash"; "-c";
    "cd '" ++ base_dir self ++ "' && python3 agents/agent_runner.py --agent " ++
    agent_name ++ "; exec bash" ].

Definition launch_linux_gnome (sp : subprocess) (self : ClaudeStackLauncher)
    (agent_name : string) : launching bool :=
  try_except
    (subprocess_run sp (gnome_command self agent_name);; mret true)
    both_errors
    (mret false).

Definition launch_agent (sp : subprocess) (self : ClaudeStackLauncher)
    (agent_name : string) : launching bool :=
  if bool_decide (system self = "darwin") then
    launched ← launch_macos_iterm sp self agent_name;
    if negb launched then launch_macos_terminal sp self agent_name
    else mret true
  else if bool_decide (system self = "linux") then
    launch_linux_gnome sp self agent_name
  else mret false.

Definition router_gnome_command (self : ClaudeStackLauncher) : command :=
  [ "gnome-terminal"; "--tab"; "--title"; "ClaudeStack-Router";
    "--"; "bash"; "-c";
    "cd '" ++ base_dir self ++ "' && python3 router.py; exec bash" ].

Definition launch_router (sp : subprocess) (self : ClaudeStackLauncher)
  : launching bool :=
  if bool_decide (system self = "darwin") then
    try_except
      (subprocess_run sp ["osascript"; "-e"; router_script self];; mret true)
      only_called_process_error
      (mret false)
  else if bool_decide (system self = "linux") then
    try_except
      (subprocess_run sp (router_gnome_command self);; mret true)
      both_errors
      (mret false)
  else mret false.

(** The loop of [launch_all] over the agents, counting the launches that
    succeeded. *)
Fixpoint launch_each (sp : subprocess) (self : ClaudeStackLauncher)
    (agents : list string) (successful_launches : nat) : launching nat :=
  match agents with
  | [] => mret successful_launches
  | agent :: rest =>
      launched ← launch_agent sp self agent;
      launch_each sp self rest
        (if (launched : bool) then S successful_launches else successful_launches)
  end.

Definition launch_all (sp : subprocess) (env : requirements)
    (self : ClaudeStackLauncher) (agents_to_launch exclude_agents : list string)
  : launching bool :=
  if negb (check_requirements env) then mret false
  else
    let agents_to_launch :=
      filter (fun agent => agent ∉ exclude_agents) agents_to_launch in
    _ ← launch_router sp self;
    successful_launches ← launch_each sp self agents_to_launch 0;
    mret (Nat.ltb 0 successful_launches).

(** [main] with the parsed arguments: [--agents], [--exclude], [--list]. *)
Definition main (sp : subprocess) (env : requirements) (self : ClaudeStackLauncher)
    (agents exclude : list string) (list_only : bool) : launching unit :=
  if list_only then mret ()
  else
    let agents_to_launch :=
      match agents with [] => default_agents | _ => agents end in
    launch_all sp env self agents_to_launch exclude;; mret ().

End Launcher.

(** ** [setup.py]: class [ClaudeStackSetup]

    The steps of the set-up, over the same disk as the router (the base
    directory is the same).  Directories are implicit in the model, so
    [verify_directory_structure], which creates the missing ones, changes
    nothing here.  What the steps print is left out. *)

Module Setup.

(** What the steps read from the host. *)
Record host := {
  version_info : nat * nat * nat;      (* [sys.version_info], major, minor, micro *)
  api_key : option string;             (* [os.getenv("ANTHROPIC_API_KEY")] *)
  pip_install : option string;         (* [None]: pip ended well; or the [str(e)] of
                                          its [CalledProcessError] *)
  anthropic_installed : bool;          (* [from anthropic import Anthropic] works *)
  api_call : option string             (* [None]: the test call answered; or the
                                          [str(e)] of what it raised *)
}.

Record ClaudeStackSetup := {
  errors : list string;
  warnings : list string
}.

Definition add_error (msg : string) (self : ClaudeStackSetup) : ClaudeStackSetup :=
  {| errors := errors self ++ [msg]; warnings := warnings self |}.
Definition add_warning (msg : string) (self : ClaudeStackSetup) : ClaudeStackSetup :=
  {| errors := errors self; warnings := warnings self ++ [msg] |}.

(** A step: the flag it returns, the set-up and the disk it leaves. *)
Definition step : Type := ClaudeStackSetup -> world -> bool * ClaudeStackSetup * world.

(** [sys.version_info < (3, 8)] *)
Definition older_than_3_8 (v : nat * nat * nat) : bool :=
  let '(major, minor, _) := v in
  Nat.ltb major 3 || (Nat.eqb major 3 && Nat.ltb minor 8).

Definition check_python_version (h : host) : step := fun self w =>
  if older_than_3_8 (version_info h) then
    let '(major, minor, micro) := version_info h in
    (false,
     add_error ("Python 3.8+ is required. Current version: " ++ pretty major ++ "." ++
                pretty minor ++ "." ++ pretty micro) self,
     w)
  else (true, self, w).

Definition check_api_key (h : host) : step := fun self w =>
  if Text.is_empty (default "" (api_key h)) then
    (false,
     add_warning ("ANTHROPIC_API_KEY environment variable not set. " ++
                  "You'll need to set this before running ClaudeStack.") self,
     w)
  else if negb (String.prefix "sk-ant-" (default "" (api_key h))) then
    (false,
     add_warning "API key format looks incorrect. Should start with 'sk-ant-'" self,
     w)
  else (true, self, w).

Definition install_dependencies (h : host) : step := fun self w =>
  if negb (bool_decide (is_Some (files w !! "requirements.txt"))) then
    (false, add_error "requirements.txt not found" self, w)
  else
    match pip_install h with
    | None => (true, self, w)
    | Some e => (false, add_error ("Failed to install dependencies: " ++ e) self, w)
    end.

Definition verify_directory_structure : step := fun self w => (true, self, w).

Definition required_files : list string :=
  [ "router.py"; "launcher.py"; "agents/agent_runner.py";
    "config/routing_rules.json"; "config/model_assignments.json" ].

(** [', '.join(items)] *)
Definition join_comma (items : list string) : string := String.concat ", " items.

Definition verify_core_files : step := fun self w =>
  let missing_files :=
    filter (fun file_path => ¬ is_Some (files w !! file_path)) required_files in
  match missing_files with
  | [] => (true, self, w)
  | _ => (false, add_error ("Missing core files: " ++ join_comma missing_files) self, w)
  end.

Definition test_anthropic_connection (h : host) : step := fun self w =>
  if Text.is_empty (default "" (api_key h)) then (false, self, w)
  else if negb (anthropic_installed h) then
    (false, add_warning "anthropic package not installed" self, w)
  else
    match api_call h with
    | None => (true, self, w)
    | Some e => (false, add_warning ("API connection failed: " ++ e) self, w)
    end.

Definition sample_file : string := "inbox/chat.md".

Definition sample_content : string :=
  "
# Welcome to ClaudeStack!

This is a sample input file. Try asking:

" ++ Text.dq ++ "Help me plan a simple Python web scraper that can extract article titles from a news website." ++ Text.dq ++ "

Or:

" ++ Text.dq ++ "Review this code for potential issues:
```python
def get_user_data(user_id):
    query = f" ++ Text.dq ++ "SELECT * FROM users WHERE id = {user_id}" ++ Text.dq ++ "
    return database.execute(query)
```" ++ Text.dq ++ "

Delete this content and write your own request!
".

(** [create_sample_input] returns nothing; the flag is not used. *)
Definition create_sample_input : step := fun self w =>
  (true, self, World (<[sample_file := sample_content]> (files w)) (clock w)).

(** [run]: the steps in their order; the flags are dropped, and the
    set-up has succeeded when no error was recorded.  No step of the model
    raises, so the handler around each step is never entered. *)
Definition run (h : host) : world -> bool * ClaudeStackSetup * world := fun w =>
  let self := {| errors := []; warnings := [] |} in
  let '(_, self, w) := check_python_version h self w in
  let '(_, self, w) := verify_directory_structure self w in
  let '(_, self, w) := verify_core_files self w in
  let '(_, self, w) := check_api_key h self w in
  let '(_, self, w) := install_dependencies h self w in
  let '(_, self, w) := test_anthropic_connection h self w in
  let '(_, self, w) := create_sample_input self w in
  (Nat.eqb (length (errors self)) 0, self, w).

End Setup.

(** ** Vocabulary of the statements *)

(** What a poller works on after reading a watched file: the text, read in
    text mode and stripped. *)
Definition message_of (raw : string) : string := Text.strip (Text.read_text raw).

(** An outside writer (the user, for the shared inbox; an editor of the
    configuration, between two runs) replaces or removes a file. *)
Definition put_file (path content : string) (w : world) : world :=
  World (<[path := content]> (files w)) (clock w).
Definition remove_file (path : string) (w : world) : world :=
  World (delete path (files w)) (clock w).

(** *** Where the model is the program

    Text of 7-bit characters: it decodes to itself under every codec a
    locale may choose, [str.strip], [str.lower] and [str.title] touch the
    ASCII white space and letters only, and [len] counts its bytes. *)
Definition ascii_text (s : string) : bool :=
  forallb (fun ch => Nat.ltb (Text.code ch) 128) (list_ascii_of_string s).

(** A watched or persisted file that is absent or holds ASCII text. *)
Definition ascii_file (path : string) (w : world) : bool :=
  ascii_text (default "" (files w !! path)).

(** An agent name that is one path component: printable ASCII without the
    separator, short enough for a file name.  [inbox/<name>.md],
    [outbox/<name>.md] and [prompts/<name>.txt] then lie directly in
    directories the program has created. *)
Definition plain_name (name : string) : bool :=
  Nat.leb (String.length name) 200 &&
  forallb (fun ch => Text.between 32 126 ch && negb (Ascii.eqb ch "/"))
          (list_ascii_of_string name).

(** Routing rules that name plain agents only. *)
Definition plain_targets (self : Router.ClaudeStackRouter) : bool :=
  forallb (fun entry => plain_name entry.2) (map_to_list (Router.routing_rules self)).

(** A service whose answers, and whose error messages, are ASCII text. *)
Definition ascii_client (c : client) : Prop :=
  forall (model : string) (max_tokens : nat) (prompt : string),
    ascii_text (match c model max_tokens prompt with
                | inl text => text
                | inr error => error
                end) = true.

(** A clock rendered in ASCII, as [strftime] does for the format the
    program uses. *)
Definition ascii_clock `{Outside} : Prop :=
  forall n : nat, ascii_text (strftime n) = true.

(** [needle in haystack], for strings. *)
Definition contains (needle haystack : string) : Prop :=
  exists before after : string, haystack = before ++ needle ++ after.


(** The label [classify_intent] returns, as a function of the answer of the
    service. *)
Definition classified (c : client) (self : Router.ClaudeStackRouter)
    (message : string) : string :=
  match c "claude-3-5-sonnet-20241022" 50 (Router.classification_prompt message) with
  | inl text =>
      let intent := Text.lower (Text.strip text) in
      if bool_decide (is_Some (Router.routing_rules self !! intent))
      then intent else "general"
  | inr _ => "general"
  end.


(** The agent once it has dealt with the content of digest [h]. *)
Definition remembering (self : Agent.ClaudeStackAgent) (h : option string)
  : Agent.ClaudeStackAgent :=
  {| Agent.agent_name := Agent.agent_name self;
     Agent.model := Agent.model self;
     Agent.prompt_template := Agent.prompt_template self;
     Agent.last_input_hash := h |}.


(** The calls an outcome of the launcher ends with. *)
Definition calls_of {A} (o : Launcher.outcome A) : list Launcher.command :=
  match o with
  | Launcher.Returned _ calls => calls
  | Launcher.Raised _ calls => calls
  end.

(** The command lines the launcher may use for an agent, and for the
    router. *)
Definition agent_commands (self : Launcher.ClaudeStackLauncher) (agent : string)
  : list Launcher.command :=
  [ ["osascript"; "-e"; Launcher.iterm_script self agent];
    ["osascript"; "-e"; Launcher.terminal_script self agent];
    Launcher.gnome_command self agent ].

Definition router_commands (self : Launcher.ClaudeStackLauncher)
  : list Launcher.command :=
  [ ["osascript"; "-e"; Launcher.router_script self];
    Launcher.router_gnome_command self ].

(** ** Sample data for the concrete runs *)

Definition answering (text : string) : client := fun _ _ _ => inl text.
Definition failing (msg : string) : client := fun _ _ _ => inr msg.

Definition fresh_router : Router.ClaudeStackRouter :=
  {| Router.routing_rules := list_to_map Router.default_rules;
     Router.last_chat_hash := None |}.

Definition fresh_helper : Agent.ClaudeStackAgent :=
  {| Agent.agent_name := "helper";
     Agent.model := "claude-3-5-sonnet-20241022";
     Agent.prompt_template := Agent.get_default_prompt "helper";
     Agent.last_input_hash := None |}.

Definition disk (entries : list (string * string)) : world :=
  World (list_to_map entries) 0.

Definition fresh_agent (name : string) : Agent.ClaudeStackAgent :=
  {| Agent.agent_name := name;
     Agent.model := "claude-3-5-sonnet-20241022";
     Agent.prompt_template := Agent.get_default_prompt name;
     Agent.last_input_hash := None |}.

Definition linux_launcher : Launcher.ClaudeStackLauncher :=
  {| Launcher.base_dir := "/opt/claudestack"; Launcher.system := "linux" |}.
Definition macos_launcher : Launcher.ClaudeStackLauncher :=
  {| Launcher.base_dir := "/opt/claudestack"; Launcher.system := "darwin" |}.
Definition ready : Launcher.requirements :=
  {| Launcher.agent_runner_exists := true;
     Launcher.anthropic_api_key := Some "sk-ant-test" |}.
(** A host on which every process starts, and one without the terminal
    program. *)
Definition all_start : Launcher.subprocess := fun _ _ => None.
Definition none_found : Launcher.subprocess :=
  fun _ _ => Some Launcher.FileNotFoundError.
Definition bare_host : Setup.host :=
  {| Setup.version_info := (3, 11, 4); Setup.api_key := None;
     Setup.pip_install := None; Setup.anthropic_installed := true;
     Setup.api_call := None |}.

(** * Properties *)

(** ** Sanity checks of the text operations *)

Example strip_example :
  Text.strip (" " ++ Text.nl ++ " Bug_Fix  " ++ Text.nl) = "Bug_Fix".
Proof. reflexivity. Qed.

Example lower_example : Text.lower "Bug_Fix" = "bug_fix".
Proof. reflexivity. Qed.

Example title_example : Text.title "code_reviewer x2y" = "Code_Reviewer X2Y".
Proof. reflexivity. Qed.

Example read_text_example :
  Text.read_text (String "a" (String "013" (String "010" (String "013" "b"))))
  = String "a" (String "010" (String "010" "b")).
Proof. reflexivity. Qed.

Lemma is_empty_true (s : string) : Text.is_empty s = true <-> s = "".
Proof. destruct s; simpl; split; congruence. Qed.

Lemma is_empty_false (s : string) : Text.is_empty s = false <-> s <> "".
Proof. destruct s; simpl; split; congruence. Qed.

Lemma lstrip_blank (s : string) :
  Forall (fun c => Text.isspace c = true) (list_ascii_of_string s) ->
  Text.lstrip s = "".
Proof.
  induction s as [|c s IH]; simpl; [reflexivity|].
  intros Hall. inversion Hall as [|? ? Hc Hs]; subst.
  rewrite Hc. auto.
Qed.

(** A text made of blanks only is empty once stripped. *)
Lemma strip_blank (s : string) :
  Forall (fun c => Text.isspace c = true) (list_ascii_of_string s) ->
  Text.strip s = "".
Proof. intros Hall. unfold Text.strip. rewrite lstrip_blank; auto. Qed.

(** ** Running the [io] monad *)

Lemma bind_ret {A B} (a : A) (k : A -> io B) (w : world) :
  (mret a ≫= k) w = k a w.
Proof. reflexivity. Qed.

Lemma bind_raise {A B} (e : exn) (k : A -> io B) (w : world) :
  (raise e ≫= k) w = Raise e w.
Proof. reflexivity. Qed.

Lemma bind_assoc {A B C} (m : io A) (f : A -> io B) (g : B -> io C) (w : world) :
  ((m ≫= f) ≫= g) w = (m ≫= (fun x => f x ≫= g)) w.
Proof.
  unfold mbind, io_bind. destruct (m w); reflexivity.
Qed.

Lemma bind_run {A B} (m : io A) (k : A -> io B) (w w' : world) (a : A) :
  m w = Ret a w' -> (m ≫= k) w = k a w'.
Proof. intros E. unfold mbind, io_bind. rewrite E. reflexivity. Qed.

Lemma bind_exists_file {B} (p : string) (k : bool -> io B) (w : world) :
  (exists_file p ≫= k) w = k (bool_decide (is_Some (files w !! p))) w.
Proof. reflexivity. Qed.

Lemma bind_read_bytes {B} (p : string) (k : string -> io B) (w : world) :
  (read_bytes p ≫= k) w = k (default "" (files w !! p)) w.
Proof. reflexivity. Qed.

Lemma bind_read_file {B} (p : string) (k : string -> io B) (w : world) :
  (read_file p ≫= k) w = k (Text.read_text (default "" (files w !! p))) w.
Proof. reflexivity. Qed.

Lemma bind_write_file {B} (p content : string) (k : unit -> io B) (w : world) :
  (write_file p content ≫= k) w
  = k () (World (<[p := content]> (files w)) (clock w)).
Proof. reflexivity. Qed.

Lemma bind_append_file {B} (p content : string) (k : unit -> io B) (w : world) :
  (append_file p content ≫= k) w
  = k () (World (<[p := default "" (files w !! p) ++ content]> (files w)) (clock w)).
Proof. reflexivity. Qed.

Lemma bind_tick {B} (k : nat -> io B) (w : world) :
  (tick ≫= k) w = k (clock w) (World (files w) (S (clock w))).
Proof. reflexivity. Qed.

Lemma bind_now `{Outside} {B} (k : string -> io B) (w : world) :
  (now ≫= k) w = k (strftime (clock w)) (World (files w) (S (clock w))).
Proof. reflexivity. Qed.

Lemma world_eta (w : world) : World (files w) (clock w) = w.
Proof. destruct w; reflexivity. Qed.

Create Rewrite HintDb io.
#[local] Hint Rewrite @bind_assoc @bind_ret @bind_raise @bind_exists_file @bind_read_bytes
  @bind_read_file @bind_write_file @bind_append_file @bind_tick @bind_now
  world_eta : io.

Ltac io_steps := repeat (progress (autorewrite with io; cbn [files clock])).

(** ** The router *)

Section RouterFacts.
Context `{Outside}.
Implicit Types (self : Router.ClaudeStackRouter) (c : client) (w : world).

Lemma router_inbox_not_chat (agent : string) :
  Router.inbox_file agent <> Router.chat_file.
Proof.
  unfold Router.inbox_file, Router.chat_file. simpl. intros E.
  injection E as E.
  do 9 (destruct agent as [|? agent]; simpl in E; [discriminate|];
        try discriminate; injection E as ? E).
Qed.

Lemma router_log_not_chat : Router.log_file <> Router.chat_file.
Proof. discriminate. Qed.

Lemma router_inbox_not_log (agent : string) :
  Router.inbox_file agent <> Router.log_file.
Proof. discriminate. Qed.

Lemma log_message_run (message : string) w :
  Router.log_message message w
  = Ret () (World (<[Router.log_file :=
                       default "" (files w !! Router.log_file) ++
                       "[" ++ strftime (clock w) ++ "] " ++ message ++ Text.nl]>
                     (files w))
                  (S (clock w))).
Proof. unfold Router.log_message. io_steps. reflexivity. Qed.

(** [classify_intent] always returns, and writes at most to the log. *)
Lemma classify_intent_run c self (message : string) w :
  exists w',
    Router.classify_intent c self message w = Ret (classified c self message) w' /\
    (forall p, p <> Router.log_file -> files w' !! p = files w !! p) /\
    (forall text,
        c "claude-3-5-sonnet-20241022" 50 (Router.classification_prompt message)
        = inl text -> w' = w).
Proof.
  unfold Router.classify_intent, classified, try_except, call.
  destruct (c _ _ _) as [text|msg].
  - exists w. rewrite bind_ret. cbv zeta.
    split; [|split]; [|reflexivity|reflexivity].
    destruct (bool_decide _); reflexivity.
  - rewrite bind_raise.
    eexists. split.
    + erewrite bind_run by apply log_message_run. reflexivity.
    + split; [|discriminate].
      intros p Hp. cbn [files]. rewrite lookup_insert_ne; auto.
Qed.

(** [route_message] always returns: the envelope is in the inbox of the
    target and the decision is in the log. *)
Lemma route_message_run self (message intent : string) w :
  let target := default "helper" (Router.routing_rules self !! intent) in
  let timestamp := strftime (clock w) in
  let envelope := Router.routed_content timestamp intent message in
  let sent := <[Router.inbox_file target := envelope]> (files w) in
  Router.route_message self message intent w
  = Ret target
      (World (<[Router.log_file :=
                  default "" (sent !! Router.log_file) ++
                  "[" ++ strftime (S (clock w)) ++ "] " ++
                  ("[" ++ timestamp ++ "] Routed user query (intent: " ++ intent ++
                   ") to " ++ target) ++ Text.nl]> sent)
             (S (S (clock w)))).
Proof.
  intros. unfold Router.route_message. io_steps.
  erewrite bind_run by apply log_message_run.
  reflexivity.
Qed.

Lemma get_file_hash_present (p content : string) w :
  files w !! p = Some content ->
  Router.get_file_hash p w = Ret (Some (md5_hexdigest content)) w.
Proof.
  intros E. unfold Router.get_file_hash. io_steps.
  rewrite bool_decide_eq_true_2 by (rewrite E; eauto).
  cbv iota. io_steps. rewrite E. reflexivity.
Qed.

(** The four ways a polling cycle of the router goes. *)

Lemma process_chat_input_absent c self w :
  files w !! Router.chat_file = None ->
  Router.process_chat_input c self w = Ret (false, self) w.
Proof.
  intros E. unfold Router.process_chat_input. io_steps.
  rewrite bool_decide_eq_false_2 by (rewrite E; intros [? ?]; discriminate).
  reflexivity.
Qed.

Lemma process_chat_input_seen c self w (raw : string) :
  files w !! Router.chat_file = Some raw ->
  Router.last_chat_hash self = Some (md5_hexdigest raw) ->
  Router.process_chat_input c self w = Ret (false, self) w.
Proof.
  intros E Hseen. unfold Router.process_chat_input. io_steps.
  rewrite bool_decide_eq_true_2 by (rewrite E; eauto). cbn [negb]. cbv iota.
  erewrite bind_run by (apply get_file_hash_present; eassumption).
  rewrite bool_decide_eq_true_2 by congruence.
  reflexivity.
Qed.

Lemma process_chat_input_blank c self w (raw : string) :
  files w !! Router.chat_file = Some raw ->
  message_of raw = "" ->
  Router.process_chat_input c self w = Ret (false, self) w.
Proof.
  intros E Hblank. unfold Router.process_chat_input. io_steps.
  rewrite bool_decide_eq_true_2 by (rewrite E; eauto). cbn [negb]. cbv iota.
  erewrite bind_run by (apply get_file_hash_present; eassumption).
  destruct (bool_decide _); [reflexivity|].
  io_steps. rewrite E. cbn [from_option id]. change (Text.strip (Text.read_text raw)) with (message_of raw). rewrite Hblank.
  reflexivity.
Qed.

Lemma process_chat_input_routes c self w (raw : string) :
  files w !! Router.chat_file = Some raw ->
  Router.last_chat_hash self <> Some (md5_hexdigest raw) ->
  message_of raw <> "" ->
  exists (w1 w2 : world) (target : string),
    Router.classify_intent c self (message_of raw) w
    = Ret (classified c self (message_of raw)) w1 /\
    Router.route_message self (message_of raw) (classified c self (message_of raw)) w1
    = Ret target w2 /\
    Router.process_chat_input c self w
    = Ret (true, {| Router.routing_rules := Router.routing_rules self;
                    Router.last_chat_hash := Some (md5_hexdigest raw) |}) w2 /\
    files w2 !! Router.chat_file = Some raw.
Proof.
  intros E Hnew Hmsg.
  destruct (classify_intent_run c self (message_of raw) w) as (w1 & Hc & Hframe & _).
  pose proof (route_message_run self (message_of raw)
                (classified c self (message_of raw)) w1) as Hr.
  cbv zeta in Hr.
  eexists w1, _, _. split; [exact Hc|]. split; [exact Hr|]. split.
  - unfold Router.process_chat_input. io_steps.
    rewrite bool_decide_eq_true_2 by (rewrite E; eauto). cbn [negb]. cbv iota.
    erewrite bind_run by (apply get_file_hash_present; eassumption).
    rewrite bool_decide_eq_false_2 by congruence.
    io_steps. rewrite E. cbn [from_option id]. change (Text.strip (Text.read_text raw)) with (message_of raw).
    apply is_empty_false in Hmsg. rewrite Hmsg.
    erewrite bind_run by exact Hc.
    erewrite bind_run by exact Hr.
    reflexivity.
  - cbn [files].
    rewrite lookup_insert_ne by apply router_log_not_chat.
    rewrite lookup_insert_ne by apply router_inbox_not_chat.
    rewrite Hframe by (symmetry; apply router_log_not_chat).
    exact E.
Qed.

(** In the model, where no read and no write fails, a cycle of the router
    always returns; so does any number of them. *)
Lemma process_chat_input_returns c self w :
  exists (changed : bool) (self' : Router.ClaudeStackRouter) (w' : world),
    Router.process_chat_input c self w = Ret (changed, self') w'.
Proof.
  destruct (files w !! Router.chat_file) as [raw|] eqn:E.
  - destruct (decide (Router.last_chat_hash self = Some (md5_hexdigest raw)))
      as [Hseen|Hnew].
    + eexists _, _, _. eapply process_chat_input_seen; eassumption.
    + destruct (decide (message_of raw = "")) as [Hblank|Hmsg].
      * eexists _, _, _. eapply process_chat_input_blank; eassumption.
      * destruct (process_chat_input_routes c self w raw E Hnew Hmsg)
          as (w1 & w2 & target & _ & _ & Hp & _).
        eexists _, _, _. exact Hp.
  - eexists _, _, _. apply process_chat_input_absent. exact E.
Qed.

Lemma router_run_returns (cs : list client) self w :
  exists (self' : Router.ClaudeStackRouter) (w' : world),
    Router.run cs self w = Ret self' w'.
Proof.
  revert self w. induction cs as [|c cs IH]; intros self w.
  - eexists _, _. reflexivity.
  - destruct (process_chat_input_returns c self w) as (changed & self1 & w1 & Hc).
    destruct (IH self1 w1) as (self' & w' & Hrun).
    exists self', w'. cbn [Router.run]. erewrite bind_run by exact Hc. exact Hrun.
Qed.

End RouterFacts.

(** ** The agent runner *)

Section AgentFacts.
Context `{Outside}.
Implicit Types (self : Agent.ClaudeStackAgent) (c : client) (w : world).

Lemma agent_outbox_not_inbox (a b : string) :
  Agent.outbox_file a <> Agent.inbox_file b.
Proof. discriminate. Qed.

Lemma agent_log_not_inbox (a : string) : Agent.log_file <> Agent.inbox_file a.
Proof. discriminate. Qed.

Lemma agent_outbox_not_log (a : string) : Agent.outbox_file a <> Agent.log_file.
Proof. discriminate. Qed.

Lemma agent_get_file_hash_present (p content : string) w :
  files w !! p = Some content ->
  Agent.get_file_hash p w = Ret (Some (md5_hexdigest content)) w.
Proof.
  intros E. unfold Agent.get_file_hash. io_steps.
  rewrite bool_decide_eq_true_2 by (rewrite E; eauto).
  cbv iota. io_steps. rewrite E. reflexivity.
Qed.

Lemma log_interaction_run self (input_text output_text processing_time : string) w :
  Agent.log_interaction self input_text output_text processing_time w
  = Ret () (World (<[Agent.log_file :=
                       default "" (files w !! Agent.log_file) ++
                       Agent.log_entry self (strftime (clock w)) processing_time
                         input_text output_text]> (files w))
                  (S (clock w))).
Proof. unfold Agent.log_interaction. io_steps. reflexivity. Qed.

(** [process_input] when the service answers: the answer is returned and a
    processing record is appended to the log. *)
Lemma process_input_success c self (input_text output_text : string) w :
  c (Agent.model self) 4000 (Agent.full_prompt self input_text) = inl output_text ->
  Agent.process_input c self input_text w
  = Ret output_text
      (World (<[Agent.log_file :=
                  default "" (files w !! Agent.log_file) ++
                  Agent.log_entry self (strftime (S (S (clock w))))
                    (seconds_2f (clock w) (S (clock w))) input_text output_text]>
                (files w))
             (S (S (S (clock w))))).
Proof.
  intros E. unfold Agent.process_input. io_steps.
  unfold try_except, call. rewrite E. io_steps.
  erewrite bind_run by apply log_interaction_run.
  reflexivity.
Qed.

(** [process_input] when the call raises: the description of the error is
    returned, and only the clock has moved. *)
Lemma process_input_failure c self (input_text msg : string) w :
  c (Agent.model self) 4000 (Agent.full_prompt self input_text) = inr msg ->
  Agent.process_input c self input_text w
  = Ret ("Error processing request: " ++ msg) (World (files w) (S (clock w))).
Proof.
  intros E. unfold Agent.process_input. io_steps.
  unfold try_except, call. rewrite E. io_steps. reflexivity.
Qed.

Lemma check_for_input_absent c self w :
  files w !! Agent.inbox_file (Agent.agent_name self) = None ->
  Agent.check_for_input c self w = Ret (false, self) w.
Proof.
  intros E. unfold Agent.check_for_input. io_steps.
  rewrite bool_decide_eq_false_2 by (rewrite E; intros [? ?]; discriminate).
  reflexivity.
Qed.

Lemma check_for_input_seen c self w (raw : string) :
  files w !! Agent.inbox_file (Agent.agent_name self) = Some raw ->
  Agent.last_input_hash self = Some (md5_hexdigest raw) ->
  Agent.check_for_input c self w = Ret (false, self) w.
Proof.
  intros E Hseen. unfold Agent.check_for_input. io_steps.
  rewrite bool_decide_eq_true_2 by (rewrite E; eauto). cbn [negb]. cbv iota.
  erewrite bind_run by (apply agent_get_file_hash_present; eassumption).
  rewrite (bool_decide_eq_true_2 (_ = Agent.last_input_hash self)) by congruence.
  reflexivity.
Qed.

Lemma check_for_input_blank c self w (raw : string) :
  files w !! Agent.inbox_file (Agent.agent_name self) = Some raw ->
  message_of raw = "" ->
  Agent.check_for_input c self w = Ret (false, self) w.
Proof.
  intros E Hblank. unfold Agent.check_for_input. io_steps.
  rewrite bool_decide_eq_true_2 by (rewrite E; eauto). cbn [negb]. cbv iota.
  erewrite bind_run by (apply agent_get_file_hash_present; eassumption).
  destruct (bool_decide _ || bool_decide _); [reflexivity|].
  io_steps. rewrite E. cbn [from_option id].
  change (Text.strip (Text.read_text raw)) with (message_of raw).
  rewrite Hblank. reflexivity.
Qed.

(** A cycle on fresh content: the input goes through [process_input] and
    whatever comes back is written to the outbox. *)
Lemma check_for_input_processes c self w (raw output : string) (w1 : world) :
  files w !! Agent.inbox_file (Agent.agent_name self) = Some raw ->
  Agent.last_input_hash self <> Some (md5_hexdigest raw) ->
  message_of raw <> "" ->
  Agent.process_input c self (message_of raw) w = Ret output w1 ->
  Agent.check_for_input c self w
  = Ret (true, remembering self (Some (md5_hexdigest raw)))
      (World (<[Agent.outbox_file (Agent.agent_name self) :=
                  Agent.output_content self (strftime (clock w1)) output]> (files w1))
             (S (clock w1))).
Proof.
  intros E Hnew Hmsg Hp. unfold Agent.check_for_input. io_steps.
  rewrite bool_decide_eq_true_2 by (rewrite E; eauto). cbn [negb]. cbv iota.
  erewrite bind_run by (apply agent_get_file_hash_present; eassumption).
  rewrite (bool_decide_eq_false_2 (_ = Agent.last_input_hash self)) by congruence.
  rewrite (bool_decide_eq_false_2 (_ = None)) by discriminate.
  cbn [orb]. io_steps. rewrite E. cbn [from_option id].
  change (Text.strip (Text.read_text raw)) with (message_of raw).
  apply is_empty_false in Hmsg. rewrite Hmsg.
  erewrite bind_run by exact Hp.
  io_steps. reflexivity.
Qed.

(** [process_input] always returns, and writes at most to the log. *)
Lemma process_input_run c self (input_text : string) w :
  exists (output : string) (w1 : world),
    Agent.process_input c self input_text w = Ret output w1 /\
    (forall p, p <> Agent.log_file -> files w1 !! p = files w !! p).
Proof.
  destruct (c (Agent.model self) 4000 (Agent.full_prompt self input_text))
    as [output|error] eqn:Hreply.
  - eexists _, _. split; [apply process_input_success; exact Hreply|].
    intros p Hp. cbn [files]. apply lookup_insert_ne. congruence.
  - eexists _, _. split; [apply process_input_failure; exact Hreply|].
    reflexivity.
Qed.

(** A cycle of the agent on fresh content reports a change, remembers the
    digest, and leaves the inbox as it was. *)
Lemma check_for_input_fresh c self w (raw : string) :
  files w !! Agent.inbox_file (Agent.agent_name self) = Some raw ->
  Agent.last_input_hash self <> Some (md5_hexdigest raw) ->
  message_of raw <> "" ->
  exists w',
    Agent.check_for_input c self w
    = Ret (true, remembering self (Some (md5_hexdigest raw))) w' /\
    files w' !! Agent.inbox_file (Agent.agent_name self) = Some raw.
Proof.
  intros E Hnew Hmsg.
  destruct (process_input_run c self (message_of raw) w) as (output & w1 & Hp & Hframe).
  eexists. split; [eapply check_for_input_processes; eassumption|].
  cbn [files]. rewrite lookup_insert_ne by apply agent_outbox_not_inbox.
  rewrite Hframe by (symmetry; apply agent_log_not_inbox). exact E.
Qed.



End AgentFacts.

(** ** What the router guarantees *)

Section RouterClaims.
Context `{Outside}.
Implicit Types (self : Router.ClaudeStackRouter) (c : client) (w : world).

Lemma read_text_cons (ch : ascii) (rest : string) :
  Text.read_text (String ch rest)
  = if Ascii.eqb ch "013"
    then match rest with
         | String d rest' =>
             if Ascii.eqb d "010"
             then String "010" (Text.read_text rest')
             else String "010" (Text.read_text rest)
         | EmptyString => String "010" EmptyString
         end
    else String ch (Text.read_text rest).
Proof. reflexivity. Qed.

Lemma read_text_blank_upto (n : nat) (raw : string) :
  String.length raw <= n ->
  Forall (fun ch => Text.isspace ch = true) (list_ascii_of_string raw) ->
  Forall (fun ch => Text.isspace ch = true) (list_ascii_of_string (Text.read_text raw)).
Proof.
  revert raw. induction n as [|n IH]; intros [|ch rest] Hlen Hall;
    try (constructor; fail); try (simpl in Hlen; lia).
  rewrite read_text_cons. simpl in Hlen.
  inversion Hall as [|? ? Hch Hrest]; subst.
  destruct (Ascii.eqb ch "013").
  - destruct rest as [|d rest'].
    + repeat constructor.
    + destruct (Ascii.eqb d "010"); cbn [list_ascii_of_string];
        constructor; try reflexivity.
      * apply IH; [simpl in Hlen; lia|]. inversion Hrest; assumption.
      * apply IH; [lia|assumption].
  - cbn [list_ascii_of_string]. constructor; [assumption|].
    apply IH; [lia|assumption].
Qed.

Lemma read_text_blank (raw : string) :
  Forall (fun ch => Text.isspace ch = true) (list_ascii_of_string raw) ->
  Forall (fun ch => Text.isspace ch = true) (list_ascii_of_string (Text.read_text raw)).
Proof. apply (read_text_blank_upto (String.length raw)). lia. Qed.

(** A file made of blanks only carries no message. *)
Lemma message_of_blank (raw : string) :
  Forall (fun ch => Text.isspace ch = true) (list_ascii_of_string raw) ->
  message_of raw = "".
Proof. intros Hall. apply strip_blank, read_text_blank, Hall. Qed.

(** C7.  When the shared inbox is empty once stripped (it is empty, or it
    holds blanks only), a cycle of the router reports no change and leaves
    the world as it was: no envelope reaches the inbox of any agent and the
    activity log gets no entry. *)
Theorem blank_chat_is_ignored c self w (raw : string) :
  files w !! Router.chat_file = Some raw ->
  message_of raw = "" ->
  exists w',
    Router.process_chat_input c self w = Ret (false, self) w' /\
    (forall agent, files w' !! Router.inbox_file agent = files w !! Router.inbox_file agent) /\
    files w' !! Router.log_file = files w !! Router.log_file /\
    w' = w.
Proof.
  intros E Hblank. exists w.
  rewrite (process_chat_input_blank c self w raw E Hblank). auto.
Qed.





End RouterClaims.

(** ** What the agent runner guarantees *)

Section AgentClaims.
Context `{Outside}.
Implicit Types (self : Agent.ClaudeStackAgent) (c : client) (w : world).

Lemma append_assoc (s t u : string) : (s ++ t) ++ u = s ++ t ++ u.
Proof.
  induction s as [|ch s IH]; [reflexivity|].
  change (String ch ((s ++ t) ++ u) = String ch (s ++ t ++ u)).
  f_equal. exact IH.
Qed.

Lemma contains_here (needle after : string) : contains needle (needle ++ after).
Proof. exists "", after. reflexivity. Qed.

Lemma contains_later (needle before rest : string) :
  contains needle rest -> contains needle (before ++ rest).
Proof.
  intros (b & a & ->). exists (before ++ b), a. symmetry. apply append_assoc.
Qed.


(** The [ValueError] the start-up raises itself: no credential. *)
Lemma init_without_credential (name : string) w :
  Agent.init None name w
  = Raise (ValueError "ANTHROPIC_API_KEY environment variable not set") w.
Proof. reflexivity. Qed.

Lemma main_without_credential (name : string) (cs : list client) w :
  Agent.main None name cs w
  = (Agent.ConfigurationError "ANTHROPIC_API_KEY environment variable not set", w).
Proof. reflexivity. Qed.

(** A cycle in which the service answers appends a processing record to the
    activity log.  The input and the answer are ASCII text, so that the
    lengths of the record count their characters; the agent has a plain
    name and a model named in ASCII. *)
Lemma successful_generation_is_recorded c self w (raw output : string) :
  ascii_text raw = true ->
  ascii_text output = true ->
  plain_name (Agent.agent_name self) = true ->
  ascii_text (Agent.model self) = true ->
  files w !! Agent.inbox_file (Agent.agent_name self) = Some raw ->
  Agent.last_input_hash self <> Some (md5_hexdigest raw) ->
  message_of raw <> "" ->
  c (Agent.model self) 4000 (Agent.full_prompt self (message_of raw)) = inl output ->
  exists w',
    Agent.check_for_input c self w
    = Ret (true, remembering self (Some (md5_hexdigest raw))) w' /\
    files w' !! Agent.log_file
    = Some (default "" (files w !! Agent.log_file) ++
            Agent.log_entry self (strftime (S (S (clock w))))
              (seconds_2f (clock w) (S (clock w))) (message_of raw) output).
Proof.
  intros _ _ _ _ E Hnew Hmsg Hreply.
  eexists. split.
  - eapply check_for_input_processes; eauto.
    apply process_input_success. exact Hreply.
  - cbn [files]. rewrite lookup_insert_ne by apply agent_outbox_not_log.
    apply lookup_insert_eq.
Qed.

(** C2, where the code departs from it.  A cycle in which the call to the
    service raises does process the changed input (it reports a change and
    remembers the digest), yet the activity log is left as it was: the
    processing record is written on the success path only. *)
Theorem failed_generation_leaves_no_record c self w (raw error : string) :
  files w !! Agent.inbox_file (Agent.agent_name self) = Some raw ->
  Agent.last_input_hash self <> Some (md5_hexdigest raw) ->
  message_of raw <> "" ->
  c (Agent.model self) 4000 (Agent.full_prompt self (message_of raw)) = inr error ->
  exists w',
    Agent.check_for_input c self w
    = Ret (true, remembering self (Some (md5_hexdigest raw))) w' /\
    files w' !! Agent.log_file = files w !! Agent.log_file.
Proof.
  intros E Hnew Hmsg Hreply.
  eexists. split.
  - eapply check_for_input_processes; eauto.
    apply process_input_failure. exact Hreply.
  - cbn [files]. apply lookup_insert_ne, agent_outbox_not_log.
Qed.


End AgentClaims.

(** ** Change detection, in both pollers *)

Section FingerprintClaims.
Context `{Outside}.




End FingerprintClaims.

(** ** The default configuration *)

Section DefaultConfiguration.

(** The default routing rules as they are written to disk. *)
Example default_rules_text :
  let q s := Text.dq ++ s ++ Text.dq in
  Json.dump_indent2 Router.default_rules
  = String.concat Text.nl
      [ "{";
        "  " ++ q "feature_request" ++ ": " ++ q "planner" ++ ",";
        "  " ++ q "code_question" ++ ": " ++ q "helper" ++ ",";
        "  " ++ q "ui_request" ++ ": " ++ q "designer" ++ ",";
        "  " ++ q "bug_fix" ++ ": " ++ q "coder" ++ ",";
        "  " ++ q "code_review" ++ ": " ++ q "reviewer" ++ ",";
        "  " ++ q "testing" ++ ": " ++ q "tester" ++ ",";
        "  " ++ q "general" ++ ": " ++ q "helper";
        "}" ].
Proof. reflexivity. Qed.

(** What was written is read back as the table it came from. *)
Lemma default_rules_round_trip :
  Json.load (Text.read_text (Json.dump_indent2 Router.default_rules))
  = Some (list_to_map Router.default_rules).
Proof. vm_compute. reflexivity. Qed.

Lemma default_assignments_round_trip :
  Json.load (Text.read_text (Json.dump_indent2 Agent.default_assignments))
  = Some (list_to_map Agent.default_assignments).
Proof. vm_compute. reflexivity. Qed.

Lemma init_without_rules (w : world) :
  files w !! Router.rules_file = None ->
  Router.init w
  = Ret {| Router.routing_rules := list_to_map Router.default_rules;
           Router.last_chat_hash := None |}
        (put_file Router.rules_file (Json.dump_indent2 Router.default_rules) w).
Proof.
  intros E. unfold Router.init, Router.load_routing_rules. io_steps.
  rewrite bool_decide_eq_false_2 by (rewrite E; intros [? ?]; discriminate).
  cbv iota. io_steps. reflexivity.
Qed.

Lemma init_with_rules (w : world) (text : string) (rules : gmap string string) :
  files w !! Router.rules_file = Some text ->
  Json.load (Text.read_text text) = Some rules ->
  Router.init w
  = Ret {| Router.routing_rules := rules; Router.last_chat_hash := None |} w.
Proof.
  intros E Hload. unfold Router.init, Router.load_routing_rules. io_steps.
  rewrite bool_decide_eq_true_2 by (rewrite E; eauto). cbv iota.
  io_steps. rewrite E. cbn [from_option id]. rewrite Hload. io_steps. reflexivity.
Qed.

(** C8.  When the routing rules are not on disk at start, the router takes
    the default table and writes it out as it is; started again on what it
    wrote, it holds the same table and writes nothing; and after the file
    is removed, whatever the rest of the disk, a start writes the same
    bytes again.  The model assignments of the agent runner behave alike. *)
Theorem default_configuration_is_reproducible :
  (forall w : world,
      files w !! Router.rules_file = None ->
      Router.init w
      = Ret {| Router.routing_rules := list_to_map Router.default_rules;
               Router.last_chat_hash := None |}
            (put_file Router.rules_file (Json.dump_indent2 Router.default_rules) w)) /\
  (forall w : world,
      files w !! Router.rules_file = Some (Json.dump_indent2 Router.default_rules) ->
      Router.init w
      = Ret {| Router.routing_rules := list_to_map Router.default_rules;
               Router.last_chat_hash := None |} w) /\
  (forall w : world,
      exists (router : Router.ClaudeStackRouter) (w' : world),
        Router.init (remove_file Router.rules_file w) = Ret router w' /\
        files w' !! Router.rules_file
        = Some (Json.dump_indent2 Router.default_rules)) /\
  (forall (name : string) (w : world),
      files w !! Agent.config_file = None ->
      Agent.load_model_assignment name w
      = Ret (default Agent.fallback_model
               ((list_to_map Agent.default_assignments : gmap string string) !! name))
            (put_file Agent.config_file
               (Json.dump_indent2 Agent.default_assignments) w)) /\
  (forall (name : string) (w : world),
      files w !! Agent.config_file
      = Some (Json.dump_indent2 Agent.default_assignments) ->
      Agent.load_model_assignment name w
      = Ret (default Agent.fallback_model
               ((list_to_map Agent.default_assignments : gmap string string) !! name))
            w).
Proof.
  split; [|split; [|split; [|split]]].
  - exact init_without_rules.
  - intros w E. apply (init_with_rules w _ _ E default_rules_round_trip).
  - intros w. eexists _, _. split.
    + apply init_without_rules. apply lookup_delete_eq.
    + apply lookup_insert_eq.
  - intros name w E. unfold Agent.load_model_assignment. io_steps.
    rewrite bool_decide_eq_false_2 by (rewrite E; intros [? ?]; discriminate).
    cbv iota. io_steps. reflexivity.
  - intros name w E. unfold Agent.load_model_assignment. io_steps.
    rewrite bool_decide_eq_true_2 by (rewrite E; eauto). cbv iota.
    io_steps. rewrite E. cbn [from_option id].
    rewrite default_assignments_round_trip. io_steps. reflexivity.
Qed.

End DefaultConfiguration.

(** ** Concrete runs *)

Section ConcreteRuns.
#[local] Existing Instance sample_outside.

Ltac run_it := vm_compute; first [reflexivity | discriminate].

(** The digests of the sample outside are those of [hashlib]. *)
Example md5_of_empty : MD5.hexdigest "" = "d41d8cd98f00b204e9800998ecf8427e".
Proof. vm_compute. reflexivity. Qed.

Example md5_of_abc : MD5.hexdigest "abc" = "900150983cd24fb0d6963f7d28e17f72".
Proof. vm_compute. reflexivity. Qed.



(** The helper, the message ["hello"], and a service that is down. *)
Lemma failed_generation_leaves_no_record_witness :
  exists w',
    Agent.check_for_input (failing "Connection error.") fresh_helper
      (disk [ (Agent.inbox_file "helper", "hello") ])
    = Ret (true, remembering fresh_helper (Some (md5_hexdigest "hello"))) w' /\
    files w' !! Agent.log_file
    = files (disk [ (Agent.inbox_file "helper", "hello") ]) !! Agent.log_file.
Proof.
  apply (failed_generation_leaves_no_record (failing "Connection error.") fresh_helper
           (disk [ (Agent.inbox_file "helper", "hello") ]) "hello" "Connection error.");
    run_it.
Defined.





(** A shared inbox of two spaces, a newline and a space. *)
Lemma blank_chat_is_ignored_witness :
  exists w',
    Router.process_chat_input (answering "general") fresh_router
      (disk [ (Router.chat_file, "  " ++ Text.nl ++ " ") ])
    = Ret (false, fresh_router) w' /\
    (forall agent,
        files w' !! Router.inbox_file agent
        = files (disk [ (Router.chat_file, "  " ++ Text.nl ++ " ") ])
            !! Router.inbox_file agent) /\
    files w' !! Router.log_file
    = files (disk [ (Router.chat_file, "  " ++ Text.nl ++ " ") ]) !! Router.log_file /\
    w' = disk [ (Router.chat_file, "  " ++ Text.nl ++ " ") ].
Proof.
  apply (blank_chat_is_ignored (answering "general") fresh_router
           (disk [ (Router.chat_file, "  " ++ Text.nl ++ " ") ])
           ("  " ++ Text.nl ++ " ")); run_it.
Defined.

(** A first start on an empty disk, and a second start on what it wrote. *)
Lemma default_configuration_is_reproducible_witness :
  Router.init (disk [])
  = Ret fresh_router
        (put_file Router.rules_file (Json.dump_indent2 Router.default_rules) (disk [])) /\
  Router.init (disk [ (Router.rules_file, Json.dump_indent2 Router.default_rules) ])
  = Ret fresh_router
        (disk [ (Router.rules_file, Json.dump_indent2 Router.default_rules) ]) /\
  Agent.load_model_assignment "planner" (disk [])
  = Ret "claude-3-opus-20240229"
        (put_file Agent.config_file (Json.dump_indent2 Agent.default_assignments)
           (disk [])) /\
  Agent.load_model_assignment "planner"
    (disk [ (Agent.config_file, Json.dump_indent2 Agent.default_assignments) ])
  = Ret "claude-3-opus-20240229"
        (disk [ (Agent.config_file, Json.dump_indent2 Agent.default_assignments) ]).
Proof.
  destruct default_configuration_is_reproducible as (H1 & H2 & _ & H4 & H5).
  split; [|split; [|split]].
  - apply H1. run_it.
  - apply H2. run_it.
  - apply (H4 "planner"). run_it.
  - apply (H5 "planner"). run_it.
Defined.



End ConcreteRuns.

(** * Further properties of the two pollers *)

Section CycleEffects.
Context `{Outside}.
Implicit Types (c : client) (w : world).










End CycleEffects.

(** ** When a cycle reports a change *)

Section CycleReports.
Context `{Outside}.
Implicit Types (c : client) (w : world).

(** A cycle of the router reports a change exactly when the shared inbox
    exists, its digest is not the remembered one and its stripped text is
    not empty; a cycle that reports none has changed nothing at all.  The
    shared inbox and the answer of the service are ASCII text, and the rules
    name plain agents. *)
Theorem router_cycle_reports_exactly_new_messages c
    (self : Router.ClaudeStackRouter) w :
  ascii_file Router.chat_file w = true ->
  plain_targets self = true ->
  ascii_client c ->
  exists (changed : bool) (self' : Router.ClaudeStackRouter) (w' : world),
    Router.process_chat_input c self w = Ret (changed, self') w' /\
    (changed = true <->
     exists raw : string,
       files w !! Router.chat_file = Some raw /\
       Router.last_chat_hash self <> Some (md5_hexdigest raw) /\
       message_of raw <> "") /\
    (changed = false -> self' = self /\ w' = w).
Proof.
  intros _ _ _.
  destruct (files w !! Router.chat_file) as [raw|] eqn:E.
  - destruct (decide (Router.last_chat_hash self = Some (md5_hexdigest raw)))
      as [Hseen|Hnew].
    + exists false, self, w.
      split; [eapply process_chat_input_seen; eassumption|].
      split; [|auto]. split; [discriminate|].
      intros (raw' & [= <-] & Hnew & _). contradiction.
    + destruct (decide (message_of raw = "")) as [Hblank|Hmsg].
      * exists false, self, w.
        split; [eapply process_chat_input_blank; eassumption|].
        split; [|auto]. split; [discriminate|].
        intros (raw' & [= <-] & _ & Hmsg). contradiction.
      * destruct (process_chat_input_routes c self w raw E Hnew Hmsg)
          as (w1 & w2 & target & _ & _ & Hp & _).
        eexists true, _, w2. split; [exact Hp|].
        split; [|discriminate]. split; [|reflexivity].
        intros _. exists raw. auto.
  - exists false, self, w.
    split; [apply process_chat_input_absent; exact E|].
    split; [|auto]. split; [discriminate|].
    intros (raw' & [=] & _).
Qed.

(** The same for an agent of a plain name and its inbox. *)
Theorem agent_cycle_reports_exactly_new_inputs c
    (self : Agent.ClaudeStackAgent) w :
  ascii_file (Agent.inbox_file (Agent.agent_name self)) w = true ->
  plain_name (Agent.agent_name self) = true ->
  ascii_client c ->
  exists (changed : bool) (self' : Agent.ClaudeStackAgent) (w' : world),
    Agent.check_for_input c self w = Ret (changed, self') w' /\
    (changed = true <->
     exists raw : string,
       files w !! Agent.inbox_file (Agent.agent_name self) = Some raw /\
       Agent.last_input_hash self <> Some (md5_hexdigest raw) /\
       message_of raw <> "") /\
    (changed = false -> self' = self /\ w' = w).
Proof.
  intros _ _ _.
  destruct (files w !! Agent.inbox_file (Agent.agent_name self)) as [raw|] eqn:E.
  - destruct (decide (Agent.last_input_hash self = Some (md5_hexdigest raw)))
      as [Hseen|Hnew].
    + exists false, self, w.
      split; [eapply check_for_input_seen; eassumption|].
      split; [|auto]. split; [discriminate|].
      intros (raw' & [= <-] & Hnew & _). contradiction.
    + destruct (decide (message_of raw = "")) as [Hblank|Hmsg].
      * exists false, self, w.
        split; [eapply check_for_input_blank; eassumption|].
        split; [|auto]. split; [discriminate|].
        intros (raw' & [= <-] & _ & Hmsg). contradiction.
      * destruct (check_for_input_fresh c self w raw E Hnew Hmsg) as (w' & Hp & _).
        eexists true, _, w'. split; [exact Hp|].
        split; [|discriminate]. split; [|reflexivity].
        intros _. exists raw. auto.
  - exists false, self, w.
    split; [apply check_for_input_absent; exact E|].
    split; [|auto]. split; [discriminate|].
    intros (raw' & [=] & _).
Qed.

End CycleReports.

(** ** From the shared inbox to the outbox of an agent *)

Section Handoff.
Context `{Outside}.
Implicit Types (c : client) (w : world).

Lemma rstrip_keeps_head (ch : ascii) (s : string) :
  Text.isspace ch = false -> Text.rstrip (String ch s) <> "".
Proof.
  intros Hch. cbn [Text.rstrip]. destruct (Text.rstrip s); [rewrite Hch|]; discriminate.
Qed.

Lemma message_of_head (ch : ascii) (s : string) :
  Text.isspace ch = false -> message_of (String ch s) <> "".
Proof.
  intros Hch. unfold message_of. rewrite read_text_cons.
  destruct (Ascii.eqb ch "013") eqn:Hcr.
  - apply Ascii.eqb_eq in Hcr. subst ch. discriminate Hch.
  - unfold Text.strip. cbn [Text.lstrip]. rewrite Hch.
    apply rstrip_keeps_head. exact Hch.
Qed.

(** An envelope is never blank: it opens with its heading. *)
Lemma envelope_carries_a_message (timestamp intent message : string) :
  message_of (Router.routed_content timestamp intent message) <> "".
Proof. apply (message_of_head "#"). reflexivity. Qed.

Lemma classified_depends_on_rules c (self self' : Router.ClaudeStackRouter)
    (message : string) :
  Router.routing_rules self' = Router.routing_rules self ->
  classified c self' message = classified c self message.
Proof. intros Hrules. unfold classified. rewrite Hrules. reflexivity. Qed.

(** A cycle of the router on a new message leaves the envelope in the inbox
    of the agent the rules give for the label. *)
Lemma router_cycle_delivers c (self : Router.ClaudeStackRouter) w (raw : string) :
  files w !! Router.chat_file = Some raw ->
  Router.last_chat_hash self <> Some (md5_hexdigest raw) ->
  message_of raw <> "" ->
  exists (w1 : world) (timestamp : string),
    Router.process_chat_input c self w
    = Ret (true, {| Router.routing_rules := Router.routing_rules self;
                    Router.last_chat_hash := Some (md5_hexdigest raw) |}) w1 /\
    files w1 !! Router.inbox_file
                  (default "helper"
                     (Router.routing_rules self !! classified c self (message_of raw)))
    = Some (Router.routed_content timestamp (classified c self (message_of raw))
              (message_of raw)).
Proof.
  intros E Hnew Hmsg.
  destruct (process_chat_input_routes c self w raw E Hnew Hmsg)
    as (wc & w1 & target & _ & Hr & Hp & _).
  rewrite route_message_run in Hr. injection Hr as <- <-.
  eexists _, (strftime (clock wc)). split; [exact Hp|].
  cbn [files]. rewrite lookup_insert_ne by (symmetry; apply router_inbox_not_log).
  apply lookup_insert_eq.
Qed.

(** An agent that has seen nothing yet takes the envelope it finds: the
    service is asked about the stripped envelope, the answer (or the
    description of the error) goes to the outbox, and the envelope is not
    taken a second time. *)
Lemma agent_takes_envelope c (agent : Agent.ClaudeStackAgent) w
    (timestamp intent message : string) :
  files w !! Agent.inbox_file (Agent.agent_name agent)
  = Some (Router.routed_content timestamp intent message) ->
  Agent.last_input_hash agent = None ->
  exists (output : string) (wp w' : world),
    Agent.process_input c agent
      (message_of (Router.routed_content timestamp intent message)) w
    = Ret output wp /\
    Agent.check_for_input c agent w
    = Ret (true,
           remembering agent
             (Some (md5_hexdigest (Router.routed_content timestamp intent message))))
          w' /\
    files w' !! Agent.outbox_file (Agent.agent_name agent)
    = Some (Agent.output_content agent (strftime (clock wp)) output) /\
    (forall c',
        Agent.check_for_input c'
          (remembering agent
             (Some (md5_hexdigest (Router.routed_content timestamp intent message))))
          w'
        = Ret (false,
               remembering agent
                 (Some (md5_hexdigest (Router.routed_content timestamp intent message))))
              w').
Proof.
  intros E Hnone.
  assert (Hnew : Agent.last_input_hash agent
                 <> Some (md5_hexdigest (Router.routed_content timestamp intent message)))
    by (rewrite Hnone; discriminate).
  pose proof (envelope_carries_a_message timestamp intent message) as Hmsg.
  destruct (process_input_run c agent
              (message_of (Router.routed_content timestamp intent message)) w)
    as (output & wp & Hp & Hframe).
  pose proof (check_for_input_processes c agent w _ output wp E Hnew Hmsg Hp) as Hc.
  eexists output, wp, _. split; [exact Hp|]. split; [exact Hc|]. split.
  - apply lookup_insert_eq.
  - intros c'. eapply check_for_input_seen; [|reflexivity].
    cbn [files Agent.agent_name remembering].
    rewrite lookup_insert_ne by apply agent_outbox_not_inbox.
    rewrite Hframe by (symmetry; apply agent_log_not_inbox). exact E.
Qed.

(** End to end.  A new message in the shared inbox is classified, its
    envelope (the label and the stripped message under a timestamp) lands in
    the inbox of the agent the rules name, and that agent, if it has seen
    nothing yet, takes it in its next cycle, asks the service about the
    stripped envelope and writes what comes back to its outbox.  The
    message, the answers of the service and the timestamps are ASCII text,
    and the rules name plain agents. *)
Theorem routed_message_reaches_its_agent c ca
    (self : Router.ClaudeStackRouter) (agent : Agent.ClaudeStackAgent) w (raw : string) :
  ascii_text raw = true ->
  plain_targets self = true ->
  ascii_client c ->
  ascii_client ca ->
  ascii_clock ->
  files w !! Router.chat_file = Some raw ->
  Router.last_chat_hash self <> Some (md5_hexdigest raw) ->
  message_of raw <> "" ->
  Agent.agent_name agent
  = default "helper" (Router.routing_rules self !! classified c self (message_of raw)) ->
  Agent.last_input_hash agent = None ->
  exists (self' : Router.ClaudeStackRouter) (w1 : world) (envelope timestamp : string),
    Router.process_chat_input c self w = Ret (true, self') w1 /\
    envelope = Router.routed_content timestamp (classified c self (message_of raw))
                 (message_of raw) /\
    files w1 !! Agent.inbox_file (Agent.agent_name agent) = Some envelope /\
    exists (output : string) (wp w2 : world),
      Agent.process_input ca agent (message_of envelope) w1 = Ret output wp /\
      Agent.check_for_input ca agent w1
      = Ret (true, remembering agent (Some (md5_hexdigest envelope))) w2 /\
      files w2 !! Agent.outbox_file (Agent.agent_name agent)
      = Some (Agent.output_content agent (strftime (clock wp)) output).
Proof.
  intros _ _ _ _ _ E Hnew Hmsg Hname Hnone.
  destruct (router_cycle_delivers c self w raw E Hnew Hmsg) as (w1 & ts & Hp & Hin).
  rewrite <- Hname in Hin.
  destruct (agent_takes_envelope ca agent w1 ts _ _ Hin Hnone)
    as (output & wp & w2 & Hpi & Hc & Hout & _).
  eexists _, w1, _, ts. split; [exact Hp|]. split; [reflexivity|].
  split; [exact Hin|]. exists output, wp, w2. auto.
Qed.

(** No queue.  When a second message is routed to the same agent before the
    agent has polled, its inbox holds the second envelope only; the agent
    then takes that one, once, and the first is never processed.  The
    messages, the answers of the service and the timestamps are ASCII text,
    and the rules name plain agents. *)
Theorem later_envelope_supersedes_earlier c1 c2 ca
    (self : Router.ClaudeStackRouter) (agent : Agent.ClaudeStackAgent) w
    (raw1 raw2 : string) :
  ascii_text raw1 = true ->
  ascii_text raw2 = true ->
  plain_targets self = true ->
  ascii_client c1 ->
  ascii_client c2 ->
  ascii_client ca ->
  ascii_clock ->
  files w !! Router.chat_file = Some raw1 ->
  Router.last_chat_hash self <> Some (md5_hexdigest raw1) ->
  message_of raw1 <> "" ->
  md5_hexdigest raw2 <> md5_hexdigest raw1 ->
  message_of raw2 <> "" ->
  Agent.agent_name agent
  = default "helper" (Router.routing_rules self !! classified c1 self (message_of raw1)) ->
  Agent.agent_name agent
  = default "helper" (Router.routing_rules self !! classified c2 self (message_of raw2)) ->
  Agent.last_input_hash agent = None ->
  exists (self1 self2 : Router.ClaudeStackRouter) (w1 w2 : world)
         (envelope timestamp timestamp1 : string),
    Router.process_chat_input c1 self w = Ret (true, self1) w1 /\
    files w1 !! Agent.inbox_file (Agent.agent_name agent)
    = Some (Router.routed_content timestamp1 (classified c1 self (message_of raw1))
              (message_of raw1)) /\
    Router.process_chat_input c2 self1 (put_file Router.chat_file raw2 w1)
    = Ret (true, self2) w2 /\
    envelope = Router.routed_content timestamp (classified c2 self (message_of raw2))
                 (message_of raw2) /\
    files w2 !! Agent.inbox_file (Agent.agent_name agent) = Some envelope /\
    exists (output : string) (wp w3 : world),
      Agent.process_input ca agent (message_of envelope) w2 = Ret output wp /\
      Agent.check_for_input ca agent w2
      = Ret (true, remembering agent (Some (md5_hexdigest envelope))) w3 /\
      (forall ca',
          Agent.check_for_input ca' (remembering agent (Some (md5_hexdigest envelope))) w3
          = Ret (false, remembering agent (Some (md5_hexdigest envelope))) w3).
Proof.
  intros _ _ _ _ _ _ _ E Hnew Hmsg Hdigest Hmsg2 Hname1 Hname2 Hnone.
  destruct (router_cycle_delivers c1 self w raw1 E Hnew Hmsg) as (w1 & ts1 & Hp1 & Hin1).
  rewrite <- Hname1 in Hin1.
  set (self1 := {| Router.routing_rules := Router.routing_rules self;
                   Router.last_chat_hash := Some (md5_hexdigest raw1) |}) in *.
  assert (E2 : files (put_file Router.chat_file raw2 w1) !! Router.chat_file = Some raw2)
    by apply lookup_insert_eq.
  assert (Hnew2 : Router.last_chat_hash self1 <> Some (md5_hexdigest raw2))
    by (cbn; congruence).
  destruct (router_cycle_delivers c2 self1 _ raw2 E2 Hnew2 Hmsg2) as (w2 & ts2 & Hp2 & Hin).
  rewrite (classified_depends_on_rules c2 self self1) in Hin by reflexivity.
  cbn [Router.routing_rules self1] in Hin. rewrite <- Hname2 in Hin.
  destruct (agent_takes_envelope ca agent w2 ts2 _ _ Hin Hnone)
    as (output & wp & w3 & Hpi & Hc & _ & Honce).
  eexists self1, _, w1, w2, _, ts2, ts1.
  split; [exact Hp1|]. split; [exact Hin1|]. split; [exact Hp2|]. split; [reflexivity|].
  split; [exact Hin|]. exists output, wp, w3. auto.
Qed.

End Handoff.

(** ** What the remembered digest does and does not cover *)

Section RememberedDigest.
Context `{Outside}.
Implicit Types (c : client) (w : world).

(** Only the digest counts, not the presence of the file.  Once the digest
    of a content is the remembered one, a cycle that finds the watched file
    gone reports no change and forgets nothing, and a cycle that then finds
    the same content back reports no change either; neither cycle alters
    anything.  In the router and in an agent of a plain name alike. *)
Theorem reappearing_content_is_not_signalled :
  (forall c1 c2 (self : Router.ClaudeStackRouter) w (raw : string),
      Router.last_chat_hash self = Some (md5_hexdigest raw) ->
      Router.process_chat_input c1 self (remove_file Router.chat_file w)
      = Ret (false, self) (remove_file Router.chat_file w) /\
      Router.process_chat_input c2 self
        (put_file Router.chat_file raw (remove_file Router.chat_file w))
      = Ret (false, self)
            (put_file Router.chat_file raw (remove_file Router.chat_file w))) /\
  (forall c1 c2 (self : Agent.ClaudeStackAgent) w (raw : string),
      plain_name (Agent.agent_name self) = true ->
      Agent.last_input_hash self = Some (md5_hexdigest raw) ->
      Agent.check_for_input c1 self
        (remove_file (Agent.inbox_file (Agent.agent_name self)) w)
      = Ret (false, self) (remove_file (Agent.inbox_file (Agent.agent_name self)) w) /\
      Agent.check_for_input c2 self
        (put_file (Agent.inbox_file (Agent.agent_name self)) raw
           (remove_file (Agent.inbox_file (Agent.agent_name self)) w))
      = Ret (false, self)
            (put_file (Agent.inbox_file (Agent.agent_name self)) raw
               (remove_file (Agent.inbox_file (Agent.agent_name self)) w))).
Proof.
  split.
  - intros c1 c2 self w raw Hseen. split.
    + apply process_chat_input_absent. apply lookup_delete_eq.
    + eapply process_chat_input_seen; [apply lookup_insert_eq|exact Hseen].
  - intros c1 c2 self w raw _ Hseen. split.
    + apply check_for_input_absent. apply lookup_delete_eq.
    + eapply check_for_input_seen; [apply lookup_insert_eq|exact Hseen].
Qed.

(** No history is kept: only the last digest is remembered.  After the
    router has routed a first content and then a second one, the first
    content put back is a change again, and is routed again.  The contents
    and the answers of the service are ASCII text, and the rules name plain
    agents. *)
Theorem earlier_content_put_back_is_routed_again c1 c2 c3
    (self : Router.ClaudeStackRouter) w (raw1 raw2 : string) :
  ascii_text raw1 = true ->
  ascii_text raw2 = true ->
  plain_targets self = true ->
  ascii_client c1 ->
  ascii_client c2 ->
  ascii_client c3 ->
  files w !! Router.chat_file = Some raw1 ->
  Router.last_chat_hash self <> Some (md5_hexdigest raw1) ->
  message_of raw1 <> "" ->
  md5_hexdigest raw2 <> md5_hexdigest raw1 ->
  message_of raw2 <> "" ->
  exists (self1 self2 self3 : Router.ClaudeStackRouter) (w1 w2 w3 : world),
    Router.process_chat_input c1 self w = Ret (true, self1) w1 /\
    Router.process_chat_input c2 self1 (put_file Router.chat_file raw2 w1)
    = Ret (true, self2) w2 /\
    Router.process_chat_input c3 self2 (put_file Router.chat_file raw1 w2)
    = Ret (true, self3) w3 /\
    Router.last_chat_hash self3 = Some (md5_hexdigest raw1).
Proof.
  intros _ _ _ _ _ _ E Hnew Hmsg Hdigest Hmsg2.
  destruct (process_chat_input_routes c1 self w raw1 E Hnew Hmsg)
    as (? & w1 & ? & _ & _ & Hp1 & _).
  set (self1 := {| Router.routing_rules := Router.routing_rules self;
                   Router.last_chat_hash := Some (md5_hexdigest raw1) |}) in *.
  assert (E2 : files (put_file Router.chat_file raw2 w1) !! Router.chat_file = Some raw2)
    by apply lookup_insert_eq.
  destruct (process_chat_input_routes c2 self1 _ raw2 E2) as (? & w2 & ? & _ & _ & Hp2 & _);
    [cbn; congruence|exact Hmsg2|].
  set (self2 := {| Router.routing_rules := Router.routing_rules self1;
                   Router.last_chat_hash := Some (md5_hexdigest raw2) |}) in *.
  assert (E3 : files (put_file Router.chat_file raw1 w2) !! Router.chat_file = Some raw1)
    by apply lookup_insert_eq.
  destruct (process_chat_input_routes c3 self2 _ raw1 E3) as (? & w3 & ? & _ & _ & Hp3 & _);
    [cbn; congruence|exact Hmsg|].
  eexists self1, self2, _, w1, w2, w3.
  split; [exact Hp1|]. split; [exact Hp2|]. split; [exact Hp3|]. reflexivity.
Qed.

(** What [Router.init] and [Agent.init] give and touch. *)
Lemma router_init_effect w (self : Router.ClaudeStackRouter) (w1 : world) :
  Router.init w = Ret self w1 ->
  Router.last_chat_hash self = None /\
  (forall p, p <> Router.rules_file -> files w1 !! p = files w !! p).
Proof.
  unfold Router.init, Router.load_routing_rules. io_steps.
  destruct (bool_decide (is_Some (files w !! Router.rules_file))); cbv iota; io_steps.
  - destruct (Json.load _); io_steps; [|discriminate].
    intros [= <- <-]. split; [reflexivity|]. reflexivity.
  - intros [= <- <-]. split; [reflexivity|].
    intros p Hp. cbn [files]. apply lookup_insert_ne. congruence.
Qed.

Lemma agent_init_effect (key : option string) (name : string) w
    (self : Agent.ClaudeStackAgent) (w1 : world) :
  Agent.init key name w = Ret self w1 ->
  Agent.agent_name self = name /\
  Agent.last_input_hash self = None /\
  (forall p, p <> Agent.config_file -> p <> Agent.prompt_file name ->
             files w1 !! p = files w !! p).
Proof.
  unfold Agent.init.
  destruct (Text.is_empty (default "" key)); [discriminate|].
  unfold Agent.load_model_assignment, Agent.load_prompt_template. io_steps.
  destruct (bool_decide (is_Some (files w !! Agent.config_file))); cbv iota; io_steps.
  - destruct (Json.load _); io_steps; [|discriminate].
    destruct (bool_decide (is_Some (files w !! Agent.prompt_file name)));
      cbv iota zeta; io_steps; intros [= <- <-];
      (split; [reflexivity|]); (split; [reflexivity|]); intros p Hc Hp; cbn [files];
      [reflexivity|apply lookup_insert_ne; congruence].
  - destruct (bool_decide (is_Some (<[Agent.config_file:=_]> (files w)
                                      !! Agent.prompt_file name)));
      cbv iota zeta; io_steps; intros [= <- <-];
      (split; [reflexivity|]); (split; [reflexivity|]); intros p Hc Hp; cbn [files].
    + apply lookup_insert_ne. congruence.
    + rewrite lookup_insert_ne by congruence. apply lookup_insert_ne. congruence.
Qed.

(** The remembered digest lives in memory only.  A router that starts
    finds whatever message is in the shared inbox to be new and routes it,
    also when an earlier run had routed it; an agent that starts takes the
    envelope it finds in its inbox, also when an earlier run had answered
    it.  The files read at the start and the watched file are ASCII text, as
    are the answers of the service and the persona the agent may have to
    persist; the rules name plain agents and the agent has a plain name. *)
Theorem a_start_forgets_what_was_seen :
  (forall c w (self : Router.ClaudeStackRouter) (w1 : world) (raw : string),
      ascii_file Router.rules_file w = true ->
      ascii_text raw = true ->
      ascii_client c ->
      Router.init w = Ret self w1 ->
      plain_targets self = true ->
      files w !! Router.chat_file = Some raw ->
      message_of raw <> "" ->
      exists (self' : Router.ClaudeStackRouter) (w2 : world),
        Router.process_chat_input c self w1 = Ret (true, self') w2) /\
  (forall c (key : option string) (name : string) w
          (self : Agent.ClaudeStackAgent) (w1 : world) (raw : string),
      plain_name name = true ->
      ascii_text (Agent.get_default_prompt name) = true ->
      ascii_file Agent.config_file w = true ->
      ascii_file (Agent.prompt_file name) w = true ->
      ascii_text raw = true ->
      ascii_client c ->
      Agent.init key name w = Ret self w1 ->
      files w !! Agent.inbox_file name = Some raw ->
      message_of raw <> "" ->
      exists (self' : Agent.ClaudeStackAgent) (w2 : world),
        Agent.check_for_input c self w1 = Ret (true, self') w2).
Proof.
  split.
  - intros c w self w1 raw _ _ _ Hinit _ E Hmsg.
    destruct (router_init_effect w self w1 Hinit) as (Hnone & Hframe).
    assert (E1 : files w1 !! Router.chat_file = Some raw)
      by (rewrite Hframe; [exact E|discriminate]).
    destruct (process_chat_input_routes c self w1 raw E1) as (? & w2 & ? & _ & _ & Hp & _);
      [rewrite Hnone; discriminate|exact Hmsg|].
    eexists _, w2. exact Hp.
  - intros c key name w self w1 raw _ _ _ _ _ _ Hinit E Hmsg.
    destruct (agent_init_effect key name w self w1 Hinit) as (Hname & Hnone & Hframe).
    assert (E1 : files w1 !! Agent.inbox_file (Agent.agent_name self) = Some raw)
      by (rewrite Hname, Hframe; [exact E|discriminate|discriminate]).
    destruct (check_for_input_fresh c self w1 raw E1) as (w2 & Hp & _);
      [rewrite Hnone; discriminate|exact Hmsg|].
    eexists _, w2. exact Hp.
Qed.

End RememberedDigest.

(** ** What is written down: log lines, pages, personas *)

Section Written.
Context `{Outside}.
Implicit Types (c : client) (w : world).

Lemma classify_intent_failure c (self : Router.ClaudeStackRouter)
    (message error : string) w :
  c "claude-3-5-sonnet-20241022" 50 (Router.classification_prompt message) = inr error ->
  Router.classify_intent c self message w
  = Ret "general"
      (World (<[Router.log_file :=
                  default "" (files w !! Router.log_file) ++
                  "[" ++ strftime (clock w) ++ "] " ++
                  ("Error classifying intent: " ++ error) ++ Text.nl]> (files w))
             (S (clock w))).
Proof.
  intros E. unfold Router.classify_intent, try_except, call. rewrite E.
  rewrite bind_raise. erewrite bind_run by apply log_message_run. reflexivity.
Qed.

(** A message whose classification is answered leaves one line in the log,
    the routing decision, which carries two timestamps: the one of the
    envelope and, before it, the one [log_message] adds.  The message and
    the answer are ASCII text, and the rules name plain agents. *)
Theorem answered_routing_is_logged_once c (self : Router.ClaudeStackRouter) w
    (raw answer : string) :
  ascii_text raw = true ->
  ascii_text answer = true ->
  plain_targets self = true ->
  files w !! Router.chat_file = Some raw ->
  Router.last_chat_hash self <> Some (md5_hexdigest raw) ->
  message_of raw <> "" ->
  c "claude-3-5-sonnet-20241022" 50 (Router.classification_prompt (message_of raw))
  = inl answer ->
  exists (self' : Router.ClaudeStackRouter) (w' : world) (intent target : string),
    Router.process_chat_input c self w = Ret (true, self') w' /\
    intent = classified c self (message_of raw) /\
    target = default "helper" (Router.routing_rules self !! intent) /\
    files w' !! Router.inbox_file target
    = Some (Router.routed_content (strftime (clock w)) intent (message_of raw)) /\
    files w' !! Router.log_file
    = Some (default "" (files w !! Router.log_file) ++
            "[" ++ strftime (S (clock w)) ++ "] " ++
            ("[" ++ strftime (clock w) ++ "] Routed user query (intent: " ++ intent ++
             ") to " ++ target) ++ Text.nl).
Proof.
  intros _ _ _ E Hnew Hmsg Hreply.
  destruct (process_chat_input_routes c self w raw E Hnew Hmsg)
    as (w1 & w2 & target & Hc & Hr & Hp & _).
  destruct (classify_intent_run c self (message_of raw) w) as (w1' & Hc' & _ & Hsame).
  rewrite Hc in Hc'. injection Hc' as <-.
  rewrite (Hsame answer Hreply) in *.
  rewrite route_message_run in Hr. injection Hr as <- <-.
  eexists _, _, _, _. split; [exact Hp|]. split; [reflexivity|].
  split; [reflexivity|]. split.
  - cbn [files]. rewrite lookup_insert_ne by (symmetry; apply router_inbox_not_log).
    apply lookup_insert_eq.
  - cbn [files]. rewrite lookup_insert_eq.
    rewrite lookup_insert_ne by apply router_inbox_not_log. reflexivity.
Qed.

(** A message whose classification raises is not lost: the error is
    logged, the message is routed under the label ["general"] to the agent
    the rules give for it (or to ["helper"]), and the routing decision is
    logged after the error.  The message and the description of the error
    are ASCII text, and the rules name plain agents. *)
Theorem failed_classification_is_logged_and_routed c
    (self : Router.ClaudeStackRouter) w (raw error : string) :
  ascii_text raw = true ->
  ascii_text error = true ->
  plain_targets self = true ->
  files w !! Router.chat_file = Some raw ->
  Router.last_chat_hash self <> Some (md5_hexdigest raw) ->
  message_of raw <> "" ->
  c "claude-3-5-sonnet-20241022" 50 (Router.classification_prompt (message_of raw))
  = inr error ->
  exists (self' : Router.ClaudeStackRouter) (w' : world) (target : string),
    Router.process_chat_input c self w = Ret (true, self') w' /\
    target = default "helper" (Router.routing_rules self !! "general") /\
    files w' !! Router.inbox_file target
    = Some (Router.routed_content (strftime (S (clock w))) "general" (message_of raw)) /\
    files w' !! Router.log_file
    = Some ((default "" (files w !! Router.log_file) ++
             "[" ++ strftime (clock w) ++ "] " ++
             ("Error classifying intent: " ++ error) ++ Text.nl) ++
            "[" ++ strftime (S (S (clock w))) ++ "] " ++
            ("[" ++ strftime (S (clock w)) ++ "] Routed user query (intent: general) to "
             ++ target) ++ Text.nl).
Proof.
  intros _ _ _ E Hnew Hmsg Hreply.
  destruct (process_chat_input_routes c self w raw E Hnew Hmsg)
    as (w1 & w2 & target & Hc & Hr & Hp & _).
  assert (Hlabel : classified c self (message_of raw) = "general")
    by (unfold classified; rewrite Hreply; reflexivity).
  rewrite Hlabel in *.
  rewrite (classify_intent_failure c self _ error w Hreply) in Hc.
  injection Hc as <-.
  rewrite route_message_run in Hr. injection Hr as <- <-.
  eexists _, _, _. split; [exact Hp|]. split; [reflexivity|]. split.
  - cbn [files clock].
    rewrite lookup_insert_ne by (symmetry; apply router_inbox_not_log).
    apply lookup_insert_eq.
  - cbn [files clock]. rewrite lookup_insert_eq.
    rewrite lookup_insert_ne by apply router_inbox_not_log.
    rewrite lookup_insert_eq. reflexivity.
Qed.

(** A cycle in which the service answers replaces whatever the outbox held
    by the page built around the answer, under the heading of the agent and
    above the marker of the runner.  The input and the answer are ASCII
    text, and the agent has a plain name. *)
Theorem successful_generation_is_written_to_outbox c
    (self : Agent.ClaudeStackAgent) w (raw output : string) :
  ascii_text raw = true ->
  ascii_text output = true ->
  plain_name (Agent.agent_name self) = true ->
  files w !! Agent.inbox_file (Agent.agent_name self) = Some raw ->
  Agent.last_input_hash self <> Some (md5_hexdigest raw) ->
  message_of raw <> "" ->
  c (Agent.model self) 4000 (Agent.full_prompt self (message_of raw)) = inl output ->
  exists (w' : world) (page : string),
    Agent.check_for_input c self w
    = Ret (true, remembering self (Some (md5_hexdigest raw))) w' /\
    files w' !! Agent.outbox_file (Agent.agent_name self) = Some page /\
    page = Agent.output_content self (strftime (S (S (S (clock w))))) output /\
    contains output page /\
    contains "*Generated by ClaudeStack Agent Runner*" page.
Proof.
  intros _ _ _ E Hnew Hmsg Hreply.
  pose proof (check_for_input_processes c self w raw _ _ E Hnew Hmsg
                (process_input_success c self (message_of raw) output w Hreply)) as Hc.
  cbn [files clock] in Hc.
  eexists _, _. split; [exact Hc|].
  split; [apply lookup_insert_eq|]. split; [reflexivity|]. split.
  - unfold Agent.output_content. do 5 apply contains_later. apply contains_here.
  - unfold Agent.output_content. do 5 apply contains_later.
    exists (output ++ "

---
"), Text.nl. rewrite append_assoc. reflexivity.
Qed.

End Written.

(** ** Starting an agent *)

Section AgentStart.
Context `{Outside}.
Implicit Types (w : world).

Lemma lstrip_head (s : string) (ch : ascii) (t : string) :
  Text.lstrip s = String ch t -> Text.isspace ch = false.
Proof.
  induction s as [|d s IH]; cbn [Text.lstrip]; [discriminate|].
  destruct (Text.isspace d) eqn:Hd; [exact IH|].
  intros [= <- _]. exact Hd.
Qed.

Lemma rstrip_head (s : string) (ch : ascii) (t : string) :
  Text.rstrip s = String ch t -> exists t0, s = String ch t0.
Proof.
  destruct s as [|d s]; cbn [Text.rstrip]; [discriminate|].
  destruct (Text.rstrip s); [destruct (Text.isspace d); [discriminate|]|];
    intros [= <- _]; eexists; reflexivity.
Qed.

(** What [strip] returns does not open with a blank. *)
Lemma strip_head (s : string) (ch : ascii) (t : string) :
  Text.strip s = String ch t -> Text.isspace ch = false.
Proof.
  unfold Text.strip. intros Hs.
  destruct (rstrip_head _ _ _ Hs) as (t0 & Hl). exact (lstrip_head _ _ _ Hl).
Qed.

(** Every default persona, built in or generic, opens with a newline. *)
Lemma default_prompt_opens_with_newline (name : string) :
  exists rest : string, Agent.get_default_prompt name = String "010" rest.
Proof.
  unfold Agent.get_default_prompt.
  destruct ((list_to_map Agent.prompts : gmap string string) !! name) as [v|] eqn:Hv.
  - apply elem_of_list_to_map_2 in Hv. unfold Agent.prompts in Hv.
    repeat (apply elem_of_cons in Hv as [Hv|Hv];
            [injection Hv as _ ->; eexists; reflexivity|]).
    apply elem_of_nil in Hv. contradiction.
  - eexists. reflexivity.
Qed.

(** The persona of the first start is not the persona of the later ones.
    When no persona is persisted, [load_prompt_template] returns the default
    persona as it is and writes it out; from then on it returns what it
    reads back, stripped, which differs from it: the blank lines around the
    default are lost.  For an agent of a plain name whose default persona is
    ASCII text. *)
Theorem persona_is_stripped_after_first_start (name : string) w :
  plain_name name = true ->
  ascii_text (Agent.get_default_prompt name) = true ->
  files w !! Agent.prompt_file name = None ->
  exists w1 : world,
    Agent.load_prompt_template name w = Ret (Agent.get_default_prompt name) w1 /\
    files w1 !! Agent.prompt_file name = Some (Agent.get_default_prompt name) /\
    Agent.load_prompt_template name w1
    = Ret (Text.strip (Text.read_text (Agent.get_default_prompt name))) w1 /\
    Text.strip (Text.read_text (Agent.get_default_prompt name))
    <> Agent.get_default_prompt name.
Proof.
  intros _ _ E. eexists. split; [|split; [|split]].
  - unfold Agent.load_prompt_template. io_steps.
    rewrite bool_decide_eq_false_2 by (rewrite E; intros [? ?]; discriminate).
    cbv iota zeta. io_steps. reflexivity.
  - apply lookup_insert_eq.
  - unfold Agent.load_prompt_template. io_steps.
    rewrite lookup_insert_eq.
    rewrite bool_decide_eq_true_2 by eauto. cbv iota. io_steps.
    rewrite lookup_insert_eq. cbn [from_option id]. reflexivity.
  - destruct (default_prompt_opens_with_newline name) as (rest & Hopen).
    intros Heq. rewrite Hopen in Heq at 2.
    apply strip_head in Heq. discriminate Heq.
Qed.



End AgentStart.

(** * The launcher *)

Section LauncherFacts.
Implicit Types (sp : Launcher.subprocess) (self : Launcher.ClaudeStackLauncher)
  (calls : list Launcher.command).

Lemma launching_bind_returned {A B} (m : Launcher.launching A)
    (k : A -> Launcher.launching B) calls (a : A) calls' :
  m calls = Launcher.Returned a calls' -> (m ≫= k) calls = k a calls'.
Proof. intros E. unfold mbind, Launcher.launching_bind. rewrite E. reflexivity. Qed.

Lemma launching_bind_raised {A B} (m : Launcher.launching A)
    (k : A -> Launcher.launching B) calls (e : Launcher.error) calls' :
  m calls = Launcher.Raised e calls' -> (m ≫= k) calls = Launcher.Raised e calls'.
Proof. intros E. unfold mbind, Launcher.launching_bind. rewrite E. reflexivity. Qed.

(** One attempt in a try block that catches both errors: unless the call
    raises another exception, it returns whether the process completed. *)
Lemma attempt_catching_both sp (cmd : Launcher.command) calls :
  sp (length calls) cmd <> Some Launcher.OtherError ->
  Launcher.try_except (Launcher.subprocess_run sp cmd;; mret true)
    Launcher.both_errors (mret false) calls
  = Launcher.Returned (bool_decide (sp (length calls) cmd = None)) (calls ++ [cmd]).
Proof.
  intros Hhandled.
  unfold Launcher.try_except, Launcher.subprocess_run, mbind, Launcher.launching_bind.
  destruct (sp (length calls) cmd) as [[| |]|]; try reflexivity.
  contradiction Hhandled. reflexivity.
Qed.

(** One attempt in a try block that catches [CalledProcessError] only. *)
Lemma attempt_catching_one sp (cmd : Launcher.command) calls :
  Launcher.try_except (Launcher.subprocess_run sp cmd;; mret true)
    Launcher.only_called_process_error (mret false) calls
  = match sp (length calls) cmd with
    | None => Launcher.Returned true (calls ++ [cmd])
    | Some Launcher.CalledProcessError => Launcher.Returned false (calls ++ [cmd])
    | Some Launcher.FileNotFoundError =>
        Launcher.Raised Launcher.FileNotFoundError (calls ++ [cmd])
    | Some Launcher.OtherError =>
        Launcher.Raised Launcher.OtherError (calls ++ [cmd])
    end.
Proof.
  unfold Launcher.try_except, Launcher.subprocess_run, mbind, Launcher.launching_bind.
  destruct (sp (length calls) cmd) as [[| |]|]; reflexivity.
Qed.

Lemma launch_agent_linux sp self (agent : string) calls :
  Launcher.system self = "linux" ->
  sp (length calls) (Launcher.gnome_command self agent) <> Some Launcher.OtherError ->
  Launcher.launch_agent sp self agent calls
  = Launcher.Returned
      (bool_decide (sp (length calls) (Launcher.gnome_command self agent) = None))
      (calls ++ [Launcher.gnome_command self agent]).
Proof.
  intros Hsys Hhandled. unfold Launcher.launch_agent. rewrite Hsys.
  rewrite bool_decide_eq_false_2 by discriminate.
  rewrite bool_decide_eq_true_2 by reflexivity.
  apply attempt_catching_both. exact Hhandled.
Qed.

Lemma launch_each_linux sp self (agents : list string) (n : nat) calls :
  Launcher.system self = "linux" ->
  (forall (k : nat) (cmd : Launcher.command), sp k cmd <> Some Launcher.OtherError) ->
  exists m : nat,
    Launcher.launch_each sp self agents n calls
    = Launcher.Returned m (calls ++ map (Launcher.gnome_command self) agents) /\
    n <= m /\
    (n < m <->
     exists (i : nat) (agent : string),
       agents !! i = Some agent /\
       sp (length calls + i) (Launcher.gnome_command self agent) = None).
Proof.
  intros Hsys Hhandled. revert n calls.
  induction agents as [|agent rest IH]; intros n calls.
  - exists n. split; [|split; [lia|]].
    + cbn. rewrite app_nil_r. reflexivity.
    + split; [lia|]. intros (i & a & Hi & _). rewrite lookup_nil in Hi. discriminate.
  - cbn [Launcher.launch_each].
    erewrite launching_bind_returned
      by (apply launch_agent_linux; [exact Hsys|apply Hhandled]).
    destruct (IH (if bool_decide (sp (length calls)
                                    (Launcher.gnome_command self agent) = None)
                  then S n else n)
                 (calls ++ [Launcher.gnome_command self agent])%list)
      as (m & Hrun & Hle & Hiff).
    exists m. split; [|split].
    + rewrite Hrun. cbn [map]. rewrite <- app_assoc. reflexivity.
    + destruct (bool_decide _); lia.
    + rewrite length_app in Hiff. cbn [length] in Hiff.
      split.
      * intros Hlt. case_bool_decide as Hfirst.
        -- exists 0, agent. rewrite Nat.add_0_r. auto.
        -- destruct (proj1 Hiff Hlt) as (i & a & Hi & Hsp).
           exists (S i), a. split; [exact Hi|].
           replace (length calls + S i) with (length calls + 1 + i) by lia. exact Hsp.
      * intros (i & a & Hi & Hsp). destruct i as [|i].
        -- cbn in Hi. injection Hi as <-. rewrite Nat.add_0_r in Hsp.
           rewrite bool_decide_eq_true_2 in Hle by exact Hsp. lia.
        -- cbn in Hi.
           assert (Hlt : (if bool_decide (sp (length calls)
                                            (Launcher.gnome_command self agent) = None)
                          then S n else n) < m).
           { apply Hiff. exists i, a. split; [exact Hi|].
             replace (length calls + 1 + i) with (length calls + S i) by lia.
             exact Hsp. }
           destruct (bool_decide _); lia.
Qed.

(** On Linux a failing process and a missing program are caught at every
    call: on a host where no call to [subprocess.run] raises anything else,
    [launch_all] returns.  With the requirements met, it calls
    [gnome-terminal] once for the router and then once for every agent that
    is not excluded, in the order given; and it reports success exactly
    when the terminal of at least one agent started, whether the router
    started or not. *)
Theorem launch_all_on_linux sp (env : Launcher.requirements) self
    (agents exclude : list string) calls :
  Launcher.system self = "linux" ->
  Launcher.check_requirements env = true ->
  (forall (n : nat) (cmd : Launcher.command), sp n cmd <> Some Launcher.OtherError) ->
  exists launched : bool,
    Launcher.launch_all sp env self agents exclude calls
    = Launcher.Returned launched
        (calls ++ Launcher.router_gnome_command self ::
           map (Launcher.gnome_command self)
             (filter (fun agent => agent ∉ exclude) agents)) /\
    (launched = true <->
     exists (i : nat) (agent : string),
       filter (fun agent => agent ∉ exclude) agents !! i = Some agent /\
       sp (S (length calls) + i) (Launcher.gnome_command self agent) = None).
Proof.
  intros Hsys Hreq Hhandled.
  unfold Launcher.launch_all. rewrite Hreq. cbn [negb]. cbv zeta.
  assert (Hrouter : Launcher.launch_router sp self calls
                    = Launcher.Returned
                        (bool_decide (sp (length calls)
                                        (Launcher.router_gnome_command self) = None))
                        (calls ++ [Launcher.router_gnome_command self])).
  { unfold Launcher.launch_router. rewrite Hsys.
    rewrite bool_decide_eq_false_2 by discriminate.
    rewrite bool_decide_eq_true_2 by reflexivity.
    apply attempt_catching_both. apply Hhandled. }
  erewrite launching_bind_returned by exact Hrouter.
  destruct (launch_each_linux sp self (filter (fun agent => agent ∉ exclude) agents) 0
              (calls ++ [Launcher.router_gnome_command self])%list Hsys Hhandled)
    as (m & Hrun & _ & Hiff).
  erewrite launching_bind_returned by exact Hrun.
  exists (Nat.ltb 0 m). split.
  - rewrite <- app_assoc. reflexivity.
  - rewrite length_app in Hiff. cbn [length] in Hiff.
    rewrite Nat.ltb_lt, Hiff.
    split; intros (i & a & Hi & Hsp); exists i, a; (split; [exact Hi|]).
    + replace (S (length calls) + i) with (length calls + 1 + i) by lia. exact Hsp.
    + replace (length calls + 1 + i) with (S (length calls) + i) by lia. exact Hsp.
Qed.

Lemma launch_each_unsupported sp self (agents : list string) (n : nat) calls :
  Launcher.system self <> "darwin" ->
  Launcher.system self <> "linux" ->
  Launcher.launch_each sp self agents n calls = Launcher.Returned n calls.
Proof.
  intros Hd Hl. revert n. induction agents as [|agent rest IH]; intros n.
  - reflexivity.
  - cbn [Launcher.launch_each]. unfold Launcher.launch_agent.
    rewrite !bool_decide_eq_false_2 by assumption.
    erewrite launching_bind_returned by reflexivity. apply IH.
Qed.

(** The launcher starts no process and reports failure when
    [agents/agent_runner.py] is missing, when the credential is unset or
    empty, or when the system is neither macOS nor Linux. *)
Theorem launch_all_starts_nothing_when_it_cannot sp (env : Launcher.requirements)
    self (agents exclude : list string) calls :
  Launcher.agent_runner_exists env = false \/
  default "" (Launcher.anthropic_api_key env) = "" \/
  (Launcher.system self <> "darwin" /\ Launcher.system self <> "linux") ->
  Launcher.launch_all sp env self agents exclude calls = Launcher.Returned false calls.
Proof.
  intros Hwhy. unfold Launcher.launch_all.
  destruct (Launcher.check_requirements env) eqn:Hreq; [|reflexivity].
  cbn [negb]. cbv zeta.
  destruct Hwhy as [Hrunner|[Hkey|[Hd Hl]]].
  - unfold Launcher.check_requirements in Hreq. rewrite Hrunner in Hreq. discriminate.
  - unfold Launcher.check_requirements in Hreq. rewrite Hkey in Hreq.
    destruct (negb _); discriminate.
  - assert (Hrouter : Launcher.launch_router sp self calls
                      = Launcher.Returned false calls).
    { unfold Launcher.launch_router.
      rewrite !bool_decide_eq_false_2 by assumption. reflexivity. }
    erewrite launching_bind_returned by exact Hrouter.
    erewrite launching_bind_returned by (apply launch_each_unsupported; assumption).
    reflexivity.
Qed.

(** On macOS an agent is offered to iTerm2 first and to Terminal only when
    iTerm2 fails; a missing [osascript] is not caught and leaves
    [launch_agent] as an exception, and so does any other exception of the
    call. *)
Theorem launch_agent_on_macos sp self (agent : string) calls :
  Launcher.system self = "darwin" ->
  let iterm := ["osascript"; "-e"; Launcher.iterm_script self agent] in
  let terminal := ["osascript"; "-e"; Launcher.terminal_script self agent] in
  Launcher.launch_agent sp self agent calls
  = match sp (length calls) iterm with
    | None => Launcher.Returned true (calls ++ [iterm])
    | Some Launcher.FileNotFoundError =>
        Launcher.Raised Launcher.FileNotFoundError (calls ++ [iterm])
    | Some Launcher.OtherError =>
        Launcher.Raised Launcher.OtherError (calls ++ [iterm])
    | Some Launcher.CalledProcessError =>
        match sp (S (length calls)) terminal with
        | None => Launcher.Returned true (calls ++ [iterm; terminal])
        | Some Launcher.CalledProcessError =>
            Launcher.Returned false (calls ++ [iterm; terminal])
        | Some Launcher.FileNotFoundError =>
            Launcher.Raised Launcher.FileNotFoundError (calls ++ [iterm; terminal])
        | Some Launcher.OtherError =>
            Launcher.Raised Launcher.OtherError (calls ++ [iterm; terminal])
        end
    end.
Proof.
  intros Hsys iterm terminal. unfold Launcher.launch_agent. rewrite Hsys.
  rewrite bool_decide_eq_true_2 by reflexivity.
  unfold Launcher.launch_macos_iterm, Launcher.launch_macos_terminal.
  fold iterm. fold terminal.
  unfold mbind at 1. unfold Launcher.launching_bind at 1.
  rewrite attempt_catching_one.
  destruct (sp (length calls) iterm) as [[| |]|]; [|reflexivity|reflexivity|reflexivity].
  cbn [negb]. rewrite attempt_catching_one.
  rewrite length_app. cbn [length]. rewrite Nat.add_1_r.
  rewrite <- app_assoc. reflexivity.
Qed.

(** A host without the terminal program: on macOS the first call, the one
    for the router, raises [FileNotFoundError] out of [launch_all] and of
    [main], and no agent is launched; on Linux the same failure is caught
    at every call, and [launch_all] returns [False] after trying the router
    and every agent. *)
Theorem missing_terminal_program sp (env : Launcher.requirements) self
    (agents exclude : list string) :
  Launcher.check_requirements env = true ->
  (forall (n : nat) (cmd : Launcher.command), sp n cmd = Some Launcher.FileNotFoundError) ->
  (Launcher.system self = "darwin" ->
   Launcher.launch_all sp env self agents exclude []
   = Launcher.Raised Launcher.FileNotFoundError
       [["osascript"; "-e"; Launcher.router_script self]] /\
   Launcher.main sp env self agents exclude false []
   = Launcher.Raised Launcher.FileNotFoundError
       [["osascript"; "-e"; Launcher.router_script self]]) /\
  (Launcher.system self = "linux" ->
   Launcher.launch_all sp env self agents exclude []
   = Launcher.Returned false
       (Launcher.router_gnome_command self ::
          map (Launcher.gnome_command self)
            (filter (fun agent => agent ∉ exclude) agents))).
Proof.
  intros Hreq Hmissing. split.
  - intros Hsys.
    assert (Hall : forall agents0,
               Launcher.launch_all sp env self agents0 exclude []
               = Launcher.Raised Launcher.FileNotFoundError
                   [["osascript"; "-e"; Launcher.router_script self]]).
    { intros agents0. unfold Launcher.launch_all. rewrite Hreq. cbn [negb]. cbv zeta.
      apply launching_bind_raised.
      unfold Launcher.launch_router. rewrite Hsys.
      rewrite bool_decide_eq_true_2 by reflexivity.
      rewrite attempt_catching_one, Hmissing. reflexivity. }
    split; [apply Hall|].
    unfold Launcher.main. apply launching_bind_raised. apply Hall.
  - intros Hsys.
    assert (Hrouter : Launcher.launch_router sp self []
                      = Launcher.Returned false [Launcher.router_gnome_command self]).
    { unfold Launcher.launch_router. rewrite Hsys.
      rewrite bool_decide_eq_false_2 by discriminate.
      rewrite bool_decide_eq_true_2 by reflexivity.
      rewrite attempt_catching_both by (rewrite Hmissing; discriminate).
      rewrite Hmissing.
      rewrite bool_decide_eq_false_2 by discriminate. reflexivity. }
    unfold Launcher.launch_all. rewrite Hreq. cbn [negb]. cbv zeta.
    erewrite launching_bind_returned by exact Hrouter.
    destruct (launch_each_linux sp self (filter (fun agent => agent ∉ exclude) agents) 0
                [Launcher.router_gnome_command self] Hsys)
      as (m & Hrun & _ & Hiff);
      [intros k cmd; rewrite Hmissing; discriminate|].
    erewrite launching_bind_returned by exact Hrun.
    assert (Hm : ~ 0 < m).
    { rewrite Hiff. intros (i & a & _ & Hsp). rewrite Hmissing in Hsp. discriminate. }
    replace (Nat.ltb 0 m) with false by (symmetry; apply Nat.ltb_nlt; exact Hm).
    reflexivity.
Qed.

(** *** Which command lines are used *)

Lemma append_inj_l (s x y : string) : s ++ x = s ++ y -> x = y.
Proof.
  induction s as [|ch s IH]; [auto|].
  change (String ch (s ++ x) = String ch (s ++ y) -> x = y).
  intros [= Heq]. auto.
Qed.

Lemma length_append (s t : string) :
  String.length (s ++ t) = String.length s + String.length t.
Proof.
  induction s as [|ch s IH]; [reflexivity|].
  change (S (String.length (s ++ t)) = S (String.length s + String.length t)).
  f_equal. exact IH.
Qed.

Lemma append_inj_r (s s' t : string) : s ++ t = s' ++ t -> s = s'.
Proof.
  revert s'. induction s as [|ch s IH]; intros [|ch' s'] Heq.
  - reflexivity.
  - apply (f_equal String.length) in Heq.
    change (String.length t = S (String.length (s' ++ t))) in Heq.
    rewrite length_append in Heq. lia.
  - apply (f_equal String.length) in Heq.
    change (S (String.length (s ++ t)) = String.length t) in Heq.
    rewrite length_append in Heq. lia.
  - change (String ch (s ++ t) = String ch' (s' ++ t)) in Heq.
    injection Heq as -> Heq. f_equal. apply IH. exact Heq.
Qed.

Ltac peel H := repeat (apply append_inj_l in H).

Lemma iterm_script_inj self (a b : string) :
  Launcher.iterm_script self a = Launcher.iterm_script self b -> a = b.
Proof.
  unfold Launcher.iterm_script. intros Heq. peel Heq.
  eapply append_inj_r. exact Heq.
Qed.

Lemma terminal_script_inj self (a b : string) :
  Launcher.terminal_script self a = Launcher.terminal_script self b -> a = b.
Proof.
  unfold Launcher.terminal_script. intros Heq. peel Heq.
  eapply append_inj_r. exact Heq.
Qed.

Lemma gnome_command_inj self (a b : string) :
  Launcher.gnome_command self a = Launcher.gnome_command self b -> a = b.
Proof.
  unfold Launcher.gnome_command. intros Heq. injection Heq as _ Heq. peel Heq.
  eapply append_inj_r. exact Heq.
Qed.

Lemma iterm_script_not_terminal self (a b : string) :
  Launcher.iterm_script self a <> Launcher.terminal_script self b.
Proof.
  unfold Launcher.iterm_script, Launcher.terminal_script. intros Heq. peel Heq.
  simpl in Heq. discriminate Heq.
Qed.

Lemma osascript_inj (x y : string) :
  ["osascript"; "-e"; x] = ["osascript"; "-e"; y] :> Launcher.command -> x = y.
Proof. intros [= ->]. reflexivity. Qed.

(** A command line of one agent is no command line of another agent. *)
Lemma agent_commands_name self (a b : string) (cmd : Launcher.command) :
  cmd ∈ agent_commands self a -> cmd ∈ agent_commands self b -> a = b.
Proof.
  unfold agent_commands. intros Ha Hb.
  apply elem_of_cons in Ha as [->|Ha]; [|apply elem_of_cons in Ha as [->|Ha];
    [|apply elem_of_cons in Ha as [->|Ha]; [|apply elem_of_nil in Ha; contradiction]]];
  (apply elem_of_cons in Hb as [Hb|Hb]; [|apply elem_of_cons in Hb as [Hb|Hb];
    [|apply elem_of_cons in Hb as [Hb|Hb]; [|apply elem_of_nil in Hb; contradiction]]]).
  - apply osascript_inj in Hb. exact (iterm_script_inj self a b Hb).
  - apply osascript_inj in Hb. destruct (iterm_script_not_terminal self a b Hb).
  - discriminate Hb.
  - apply osascript_inj in Hb. symmetry in Hb. destruct (iterm_script_not_terminal self b a Hb).
  - apply osascript_inj in Hb. exact (terminal_script_inj self a b Hb).
  - discriminate Hb.
  - discriminate Hb.
  - discriminate Hb.
  - exact (gnome_command_inj self a b Hb).
Qed.

(** A command line of an agent is no command line of the router. *)
Lemma agent_commands_not_router self (a : string) (cmd : Launcher.command) :
  cmd ∈ agent_commands self a -> cmd ∈ router_commands self -> False.
Proof.
  unfold agent_commands, router_commands. intros Ha Hb.
  apply elem_of_cons in Ha as [->|Ha]; [|apply elem_of_cons in Ha as [->|Ha];
    [|apply elem_of_cons in Ha as [->|Ha]; [|apply elem_of_nil in Ha; contradiction]]];
  (apply elem_of_cons in Hb as [Hb|Hb]; [|apply elem_of_cons in Hb as [Hb|Hb];
    [|apply elem_of_nil in Hb; contradiction]]).
  - apply osascript_inj in Hb. unfold Launcher.iterm_script, Launcher.router_script in Hb.
    simpl in Hb. discriminate Hb.
  - discriminate Hb.
  - apply osascript_inj in Hb. unfold Launcher.terminal_script, Launcher.router_script in Hb.
    simpl in Hb. discriminate Hb.
  - discriminate Hb.
  - discriminate Hb.
  - unfold Launcher.gnome_command, Launcher.router_gnome_command in Hb.
    injection Hb as _ Hb. peel Hb. simpl in Hb. discriminate Hb.
Qed.

Ltac listed :=
  let cmd := fresh "cmd" in
  let Hcmd := fresh "Hcmd" in
  intros cmd Hcmd;
  repeat (apply elem_of_cons in Hcmd as [->|Hcmd]);
  try (apply elem_of_nil in Hcmd; contradiction);
  repeat first [apply list_elem_of_here | apply list_elem_of_further].

(** However an attempt ends, it makes its one call. *)
Lemma attempt_calls sp (cmd : Launcher.command) (caught : Launcher.error -> bool)
    calls :
  calls_of (Launcher.try_except (Launcher.subprocess_run sp cmd;; mret true)
              caught (mret false) calls)
  = (calls ++ [cmd])%list.
Proof.
  unfold Launcher.try_except, Launcher.subprocess_run, mbind, Launcher.launching_bind.
  destruct (sp (length calls) cmd) as [e|]; [|reflexivity].
  destruct (caught e); reflexivity.
Qed.

(** Whatever happens, [launch_agent] only adds command lines of its agent
    to the calls. *)
Lemma launch_agent_calls sp self (agent : string) calls :
  exists added : list Launcher.command,
    calls_of (Launcher.launch_agent sp self agent calls) = (calls ++ added)%list /\
    (forall cmd, cmd ∈ added -> cmd ∈ agent_commands self agent).
Proof.
  unfold Launcher.launch_agent, agent_commands.
  case_bool_decide as Hd; [|case_bool_decide as Hl].
  - unfold Launcher.launch_macos_iterm, Launcher.launch_macos_terminal.
    unfold mbind at 1. unfold Launcher.launching_bind at 1.
    rewrite attempt_catching_one.
    destruct (sp (length calls) _) as [[| |]|].
    + cbn [negb]. rewrite attempt_catching_one.
      eexists [_; _].
      split; [destruct (sp _ _) as [[| |]|]; cbn [calls_of];
              rewrite <- app_assoc; reflexivity|].
      listed.
    + eexists [_]. split; [reflexivity|]. listed.
    + eexists [_]. split; [reflexivity|]. listed.
    + eexists [_]. split; [reflexivity|]. listed.
  - unfold Launcher.launch_linux_gnome.
    eexists [_]. split; [apply attempt_calls|]. listed.
  - exists []. split; [cbn; rewrite app_nil_r; reflexivity|].
    listed.
Qed.

Lemma launch_each_calls sp self (agents : list string) (n : nat) calls :
  exists added : list Launcher.command,
    calls_of (Launcher.launch_each sp self agents n calls) = (calls ++ added)%list /\
    (forall cmd, cmd ∈ added ->
                 exists agent, agent ∈ agents /\ cmd ∈ agent_commands self agent).
Proof.
  revert n calls. induction agents as [|agent rest IH]; intros n calls.
  - exists []. split; [cbn; rewrite app_nil_r; reflexivity|].
    listed.
  - destruct (launch_agent_calls sp self agent calls) as (added1 & Hcalls1 & Hin1).
    cbn [Launcher.launch_each]. unfold mbind, Launcher.launching_bind.
    destruct (Launcher.launch_agent sp self agent calls) as [launched calls1|e calls1].
    + cbn [calls_of] in Hcalls1. subst calls1.
      destruct (IH (if launched then S n else n) (calls ++ added1)%list)
        as (added2 & Hcalls2 & Hin2).
      exists (added1 ++ added2)%list. split.
      * rewrite Hcalls2, app_assoc. reflexivity.
      * intros cmd Hcmd. apply elem_of_app in Hcmd as [Hcmd|Hcmd].
        -- exists agent. split; [apply list_elem_of_here|auto].
        -- destruct (Hin2 cmd Hcmd) as (a & Ha & Hc). exists a. split; [apply list_elem_of_further; exact Ha|auto].
    + cbn [calls_of] in *. exists added1. split; [exact Hcalls1|].
      intros cmd Hcmd. exists agent. split; [apply list_elem_of_here|auto].
Qed.

Lemma launch_router_calls sp self calls :
  exists added : list Launcher.command,
    calls_of (Launcher.launch_router sp self calls) = (calls ++ added)%list /\
    (forall cmd, cmd ∈ added -> cmd ∈ router_commands self).
Proof.
  unfold Launcher.launch_router, router_commands.
  case_bool_decide as Hd; [|case_bool_decide as Hl].
  - eexists [_]. split; [apply attempt_calls|].
    listed.
  - eexists [_]. split; [apply attempt_calls|].
    listed.
  - exists []. split; [cbn; rewrite app_nil_r; reflexivity|].
    listed.
Qed.

(** An excluded agent is never launched.  On every system and whatever the
    host does, also when the launcher ends on an exception, none of the
    command lines of an agent named under [--exclude] is among the calls
    [launch_all] makes. *)
Theorem excluded_agent_is_never_launched sp (env : Launcher.requirements) self
    (agents exclude : list string) calls (agent : string) (cmd : Launcher.command) :
  agent ∈ exclude ->
  cmd ∈ agent_commands self agent ->
  exists added : list Launcher.command,
    calls_of (Launcher.launch_all sp env self agents exclude calls)
    = (calls ++ added)%list /\
    cmd ∉ added.
Proof.
  intros Hex Hcmd. unfold Launcher.launch_all.
  destruct (negb (Launcher.check_requirements env)).
  - exists []. split; [cbn; rewrite app_nil_r; reflexivity|]. apply not_elem_of_nil.
  - cbv zeta.
    destruct (launch_router_calls sp self calls) as (added1 & Hcalls1 & Hin1).
    unfold mbind at 1. unfold Launcher.launching_bind at 1.
    destruct (Launcher.launch_router sp self calls) as [started calls1|e calls1];
      cbn [calls_of] in Hcalls1; subst calls1.
    + destruct (launch_each_calls sp self (filter (fun a => a ∉ exclude) agents) 0
                  (calls ++ added1)%list) as (added2 & Hcalls2 & Hin2).
      exists (added1 ++ added2)%list. split.
      * unfold mbind, Launcher.launching_bind.
        destruct (Launcher.launch_each sp self _ 0 _) as [m calls2|e calls2];
          cbn [calls_of] in *; rewrite Hcalls2, app_assoc; reflexivity.
      * intros Hin. apply elem_of_app in Hin as [Hin|Hin].
        -- exact (agent_commands_not_router self agent cmd Hcmd (Hin1 cmd Hin)).
        -- destruct (Hin2 cmd Hin) as (a & Ha & Hc).
           apply list_elem_of_filter in Ha as [Hnot _].
           pose proof (agent_commands_name self agent a cmd Hcmd Hc) as <-.
           contradiction.
    + exists added1. split; [reflexivity|].
      intros Hin. exact (agent_commands_not_router self agent cmd Hcmd (Hin1 cmd Hin)).
Qed.

End LauncherFacts.

(** * The set-up *)

Section SetupFacts.
Context `{Outside}.

Lemma missing_core_files_none (w : world) :
  filter (fun file_path => ¬ is_Some (files w !! file_path)) Setup.required_files = []
  <-> forall file_path, file_path ∈ Setup.required_files ->
                        is_Some (files w !! file_path).
Proof.
  split.
  - intros Hnil file_path Hin.
    destruct (decide (is_Some (files w !! file_path))) as [Hsome|Hnone]; [exact Hsome|].
    assert (Hf : file_path ∈ filter (fun f => ¬ is_Some (files w !! f))
                               Setup.required_files)
      by (apply list_elem_of_filter; auto).
    rewrite Hnil in Hf. apply elem_of_nil in Hf. contradiction.
  - intros Hall.
    destruct (filter _ Setup.required_files) as [|f rest] eqn:Hf; [reflexivity|].
    assert (Hin : f ∈ filter (fun f => ¬ is_Some (files w !! f)) Setup.required_files)
      by (rewrite Hf; apply list_elem_of_here).
    apply list_elem_of_filter in Hin as [Hnot Hin].
    destruct (Hnot (Hall f Hin)).
Qed.

(** The set-up succeeds exactly when Python is at least 3.8, the five core
    files and [requirements.txt] are on disk, and pip ended well.  The
    credential and the test call to the service never decide it: without a
    key, or with a service that is down, the set-up only warns.  In every
    case the sample input has been written and nothing else on disk has
    changed. *)
Theorem setup_succeeds_exactly_when (h : Setup.host) (w : world) :
  exists (ok : bool) (self : Setup.ClaudeStackSetup) (w' : world),
    Setup.run h w = (ok, self, w') /\
    (ok = true <->
     Setup.older_than_3_8 (Setup.version_info h) = false /\
     (forall file_path, file_path ∈ Setup.required_files ->
                        is_Some (files w !! file_path)) /\
     is_Some (files w !! "requirements.txt") /\
     Setup.pip_install h = None) /\
    w' = put_file Setup.sample_file Setup.sample_content w.
Proof.
  unfold Setup.run. cbv zeta.
  unfold Setup.check_python_version, Setup.verify_directory_structure,
    Setup.verify_core_files, Setup.check_api_key, Setup.install_dependencies,
    Setup.test_anthropic_connection, Setup.create_sample_input.
  destruct (Setup.version_info h) as [[major minor] micro].
  destruct (Setup.older_than_3_8 (major, minor, micro)) eqn:Hold;
    destruct (filter _ Setup.required_files) as [|f rest] eqn:Hmissing;
    destruct (files w !! "requirements.txt") as [req|] eqn:Hreq;
    destruct (Setup.pip_install h) as [e|] eqn:Hpip;
    destruct (Text.is_empty (default "" (Setup.api_key h)));
    destruct (String.prefix "sk-ant-" (default "" (Setup.api_key h)));
    destruct (Setup.anthropic_installed h);
    destruct (Setup.api_call h);
    cbn [negb files clock Setup.errors Setup.add_error Setup.add_warning];
    try rewrite Hreq;
    try (rewrite bool_decide_eq_true_2 by eauto);
    try (rewrite bool_decide_eq_false_2 by (intros [? ?]; discriminate));
    cbn [negb files clock Setup.errors Setup.add_error Setup.add_warning
           app length Nat.eqb];
    (eexists _, _, _; split; [reflexivity|]; split; [|reflexivity]);
    (split;
     [ intros Hok;
       first [ discriminate Hok
             | split; [reflexivity|];
               split; [apply missing_core_files_none; exact Hmissing|];
               split; [eauto|reflexivity] ]
     | intros (Hv & Hfiles & Hr & Hp);
       first [ discriminate Hv
             | discriminate Hp
             | destruct Hr as [? Hr]; discriminate Hr
             | apply missing_core_files_none in Hfiles;
               rewrite Hfiles in Hmissing; discriminate Hmissing
             | reflexivity ] ]).
Qed.

(** The sample input of the set-up is not where the router looks.  It is
    written to [inbox/chat.md], which is the inbox of the agent ["chat"],
    while the router watches [inbox/chat.txt]: after the set-up, a cycle of
    the router on a disk without [inbox/chat.txt] reports nothing, and an
    agent ["chat"] that has seen nothing takes the sample as its input. *)
Theorem sample_input_goes_to_the_chat_agent (h : Setup.host) (c ca : client)
    (self : Router.ClaudeStackRouter) (agent : Agent.ClaudeStackAgent) (w : world) :
  files w !! Router.chat_file = None ->
  Agent.agent_name agent = "chat" ->
  Agent.last_input_hash agent = None ->
  exists (ok : bool) (setup : Setup.ClaudeStackSetup) (w1 : world),
    Setup.run h w = (ok, setup, w1) /\
    files w1 !! Agent.inbox_file "chat" = Some Setup.sample_content /\
    Router.process_chat_input c self w1 = Ret (false, self) w1 /\
    exists (agent' : Agent.ClaudeStackAgent) (w2 : world),
      Agent.check_for_input ca agent w1 = Ret (true, agent') w2 /\
      Agent.last_input_hash agent' = Some (md5_hexdigest Setup.sample_content).
Proof.
  intros Hchat Hname Hnone.
  destruct (Setup.run h w) as [[ok setup] w1] eqn:Hrun.
  assert (Hw1 : w1 = put_file Setup.sample_file Setup.sample_content w).
  { unfold Setup.run in Hrun. cbv zeta in Hrun.
    destruct (Setup.check_python_version h _ w) as [[? s1] w0] eqn:H1.
    assert (w0 = w) as -> by
      (unfold Setup.check_python_version in H1;
       destruct (Setup.older_than_3_8 _); [destruct (Setup.version_info h) as [[? ?] ?]|];
       congruence).
    unfold Setup.verify_directory_structure in Hrun.
    destruct (Setup.verify_core_files s1 w) as [[? s2] w0] eqn:H2.
    assert (w0 = w) as -> by
      (unfold Setup.verify_core_files in H2; cbv zeta in H2;
       destruct (filter _ _); congruence).
    destruct (Setup.check_api_key h s2 w) as [[? s3] w0] eqn:H3.
    assert (w0 = w) as -> by
      (unfold Setup.check_api_key in H3;
       destruct (Text.is_empty _); [|destruct (negb _)]; congruence).
    destruct (Setup.install_dependencies h s3 w) as [[? s4] w0] eqn:H4.
    assert (w0 = w) as -> by
      (unfold Setup.install_dependencies in H4;
       destruct (negb _); [|destruct (Setup.pip_install h)]; congruence).
    destruct (Setup.test_anthropic_connection h s4 w) as [[? s5] w0] eqn:H5.
    assert (w0 = w) as -> by
      (unfold Setup.test_anthropic_connection in H5;
       destruct (Text.is_empty _); [|destruct (negb _); [|destruct (Setup.api_call h)]];
       congruence).
    unfold Setup.create_sample_input in Hrun. injection Hrun as _ _ <-. reflexivity. }
  subst w1.
  assert (Hin : files (put_file Setup.sample_file Setup.sample_content w)
                  !! Agent.inbox_file (Agent.agent_name agent)
                = Some Setup.sample_content)
    by (rewrite Hname; apply lookup_insert_eq).
  exists ok, setup, (put_file Setup.sample_file Setup.sample_content w).
  split; [reflexivity|]. split; [apply lookup_insert_eq|]. split.
  - apply process_chat_input_absent. cbn [files put_file].
    rewrite lookup_insert_ne by discriminate. exact Hchat.
  - destruct (check_for_input_fresh ca agent _ Setup.sample_content Hin)
      as (w2 & Hp & _).
    + rewrite Hnone. discriminate.
    + vm_compute. discriminate.
    + eexists _, w2. split; [exact Hp|]. reflexivity.
Qed.

End SetupFacts.

(** * Further concrete runs *)

Section FurtherRuns.
#[local] Existing Instance sample_outside.

(** The sample clock is rendered in ASCII. *)
Lemma sample_clock_ascii : ascii_clock.
Proof.
  intros n. unfold strftime, sample_outside.
  pose proof (Nat.mod_upper_bound n 60 ltac:(discriminate)) as Hlt.
  destruct (n mod 60) as [|m]; [reflexivity|].
  do 59 (destruct m as [|m]; [reflexivity|]).
  exfalso. do 60 apply Nat.succ_lt_mono in Hlt. inversion Hlt.
Qed.

Ltac run_it :=
  first [ exact sample_clock_ascii
        | vm_compute; first [reflexivity | discriminate]
        | repeat (apply Forall_cons; split; [vm_compute; reflexivity|]);
          apply Forall_nil_2 ].




(** A cycle of the router over a first message. *)
Lemma router_cycle_reports_exactly_new_messages_witness :
  let w := disk [ (Router.chat_file, "The login page crashes") ] in
  exists (changed : bool) (self' : Router.ClaudeStackRouter) (w' : world),
    Router.process_chat_input (answering "bug_fix") fresh_router w
    = Ret (changed, self') w' /\
    (changed = true <->
     exists raw : string,
       files w !! Router.chat_file = Some raw /\
       Router.last_chat_hash fresh_router <> Some (md5_hexdigest raw) /\
       message_of raw <> "") /\
    (changed = false -> self' = fresh_router /\ w' = w).
Proof.
  cbv zeta.
  apply (router_cycle_reports_exactly_new_messages (answering "bug_fix") fresh_router
           (disk [ (Router.chat_file, "The login page crashes") ])); run_it.
Defined.

(** A cycle of the helper over a first question. *)
Lemma agent_cycle_reports_exactly_new_inputs_witness :
  let w := disk [ (Agent.inbox_file "helper", "How do I avoid the race?") ] in
  exists (changed : bool) (self' : Agent.ClaudeStackAgent) (w' : world),
    Agent.check_for_input (answering "Use a lock.") fresh_helper w
    = Ret (changed, self') w' /\
    (changed = true <->
     exists raw : string,
       files w !! Agent.inbox_file (Agent.agent_name fresh_helper) = Some raw /\
       Agent.last_input_hash fresh_helper <> Some (md5_hexdigest raw) /\
       message_of raw <> "") /\
    (changed = false -> self' = fresh_helper /\ w' = w).
Proof.
  cbv zeta.
  apply (agent_cycle_reports_exactly_new_inputs (answering "Use a lock.") fresh_helper
           (disk [ (Agent.inbox_file "helper", "How do I avoid the race?") ])); run_it.
Defined.


(** A feature request, routed to the planner and answered by it. *)
Lemma routed_message_reaches_its_agent_witness :
  exists (self' : Router.ClaudeStackRouter) (w1 : world) (envelope timestamp : string),
    Router.process_chat_input (answering "feature_request") fresh_router
      (disk [ (Router.chat_file, "Add a dark mode toggle to settings") ])
    = Ret (true, self') w1 /\
    envelope
    = Router.routed_content timestamp
        (classified (answering "feature_request") fresh_router
           (message_of "Add a dark mode toggle to settings"))
        (message_of "Add a dark mode toggle to settings") /\
    files w1 !! Agent.inbox_file (Agent.agent_name (fresh_agent "planner"))
    = Some envelope /\
    exists (output : string) (wp w2 : world),
      Agent.process_input (answering "A plan.") (fresh_agent "planner")
        (message_of envelope) w1 = Ret output wp /\
      Agent.check_for_input (answering "A plan.") (fresh_agent "planner") w1
      = Ret (true, remembering (fresh_agent "planner") (Some (md5_hexdigest envelope)))
            w2 /\
      files w2 !! Agent.outbox_file (Agent.agent_name (fresh_agent "planner"))
      = Some (Agent.output_content (fresh_agent "planner") (strftime (clock wp)) output).
Proof.
  apply (routed_message_reaches_its_agent (answering "feature_request")
           (answering "A plan.") fresh_router (fresh_agent "planner")
           (disk [ (Router.chat_file, "Add a dark mode toggle to settings") ])
           "Add a dark mode toggle to settings"); run_it.
Defined.

(** Two bug reports in a row, before the coder has polled. *)
Lemma later_envelope_supersedes_earlier_witness :
  exists (self1 self2 : Router.ClaudeStackRouter) (w1 w2 : world)
         (envelope timestamp timestamp1 : string),
    Router.process_chat_input (answering "bug_fix") fresh_router
      (disk [ (Router.chat_file, "Fix the login crash") ])
    = Ret (true, self1) w1 /\
    files w1 !! Agent.inbox_file (Agent.agent_name (fresh_agent "coder"))
    = Some (Router.routed_content timestamp1
              (classified (answering "bug_fix") fresh_router
                 (message_of "Fix the login crash"))
              (message_of "Fix the login crash")) /\
    Router.process_chat_input (answering "bug_fix") self1
      (put_file Router.chat_file "Fix the signup crash" w1)
    = Ret (true, self2) w2 /\
    envelope
    = Router.routed_content timestamp
        (classified (answering "bug_fix") fresh_router
           (message_of "Fix the signup crash"))
        (message_of "Fix the signup crash") /\
    files w2 !! Agent.inbox_file (Agent.agent_name (fresh_agent "coder"))
    = Some envelope /\
    exists (output : string) (wp w3 : world),
      Agent.process_input (answering "Patched.") (fresh_agent "coder")
        (message_of envelope) w2 = Ret output wp /\
      Agent.check_for_input (answering "Patched.") (fresh_agent "coder") w2
      = Ret (true, remembering (fresh_agent "coder") (Some (md5_hexdigest envelope))) w3 /\
      (forall ca',
          Agent.check_for_input ca'
            (remembering (fresh_agent "coder") (Some (md5_hexdigest envelope))) w3
          = Ret (false,
                 remembering (fresh_agent "coder") (Some (md5_hexdigest envelope))) w3).
Proof.
  apply (later_envelope_supersedes_earlier (answering "bug_fix") (answering "bug_fix")
           (answering "Patched.") fresh_router (fresh_agent "coder")
           (disk [ (Router.chat_file, "Fix the login crash") ])
           "Fix the login crash" "Fix the signup crash"); run_it.
Defined.

(** The shared inbox and the inbox of the helper, removed and restored
    after their content has been dealt with. *)
Lemma reappearing_content_is_not_signalled_witness :
  let router := {| Router.routing_rules := Router.routing_rules fresh_router;
                   Router.last_chat_hash := Some (md5_hexdigest "Hello") |} in
  let helper := remembering fresh_helper (Some (md5_hexdigest "Hello")) in
  let w := disk [ (Router.chat_file, "Hello"); (Agent.inbox_file "helper", "Hello") ] in
  (Router.process_chat_input (answering "general") router
     (remove_file Router.chat_file w)
   = Ret (false, router) (remove_file Router.chat_file w) /\
   Router.process_chat_input (answering "general") router
     (put_file Router.chat_file "Hello" (remove_file Router.chat_file w))
   = Ret (false, router)
         (put_file Router.chat_file "Hello" (remove_file Router.chat_file w))) /\
  (Agent.check_for_input (answering "Hi.") helper
     (remove_file (Agent.inbox_file (Agent.agent_name helper)) w)
   = Ret (false, helper) (remove_file (Agent.inbox_file (Agent.agent_name helper)) w) /\
   Agent.check_for_input (answering "Hi.") helper
     (put_file (Agent.inbox_file (Agent.agent_name helper)) "Hello"
        (remove_file (Agent.inbox_file (Agent.agent_name helper)) w))
   = Ret (false, helper)
         (put_file (Agent.inbox_file (Agent.agent_name helper)) "Hello"
            (remove_file (Agent.inbox_file (Agent.agent_name helper)) w))).
Proof.
  cbv zeta. split.
  - apply (proj1 reappearing_content_is_not_signalled (answering "general")
             (answering "general")
             {| Router.routing_rules := Router.routing_rules fresh_router;
                Router.last_chat_hash := Some (md5_hexdigest "Hello") |}
             (disk [ (Router.chat_file, "Hello"); (Agent.inbox_file "helper", "Hello") ])
             "Hello"); run_it.
  - apply (proj2 reappearing_content_is_not_signalled (answering "Hi.")
             (answering "Hi.")
             (remembering fresh_helper (Some (md5_hexdigest "Hello")))
             (disk [ (Router.chat_file, "Hello"); (Agent.inbox_file "helper", "Hello") ])
             "Hello"); run_it.
Defined.

(** A first request, a second one, and the first one again. *)
Lemma earlier_content_put_back_is_routed_again_witness :
  exists (self1 self2 self3 : Router.ClaudeStackRouter) (w1 w2 w3 : world),
    Router.process_chat_input (answering "testing") fresh_router
      (disk [ (Router.chat_file, "Test the parser") ])
    = Ret (true, self1) w1 /\
    Router.process_chat_input (answering "testing") self1
      (put_file Router.chat_file "Test the lexer" w1)
    = Ret (true, self2) w2 /\
    Router.process_chat_input (answering "testing") self2
      (put_file Router.chat_file "Test the parser" w2)
    = Ret (true, self3) w3 /\
    Router.last_chat_hash self3 = Some (md5_hexdigest "Test the parser").
Proof.
  apply (earlier_content_put_back_is_routed_again (answering "testing")
           (answering "testing") (answering "testing") fresh_router
           (disk [ (Router.chat_file, "Test the parser") ])
           "Test the parser" "Test the lexer"); run_it.
Defined.

(** A router started on a disk that holds the default rules and a
    message, and the helper started on a disk that holds an envelope. *)
Lemma a_start_forgets_what_was_seen_witness :
  let w := disk [ (Router.rules_file, Json.dump_indent2 Router.default_rules);
                  (Router.chat_file, "Hello") ] in
  let v := disk [ (Agent.inbox_file "helper", "How do I avoid the race?") ] in
  let v1 := put_file (Agent.prompt_file "helper") (Agent.get_default_prompt "helper")
              (put_file Agent.config_file (Json.dump_indent2 Agent.default_assignments)
                 v) in
  (exists (self' : Router.ClaudeStackRouter) (w2 : world),
      Router.process_chat_input (answering "general") fresh_router w
      = Ret (true, self') w2) /\
  (exists (self' : Agent.ClaudeStackAgent) (w2 : world),
      Agent.check_for_input (answering "Use a lock.") fresh_helper v1
      = Ret (true, self') w2).
Proof.
  cbv zeta. split.
  - apply (proj1 a_start_forgets_what_was_seen (answering "general")
             (disk [ (Router.rules_file, Json.dump_indent2 Router.default_rules);
                     (Router.chat_file, "Hello") ])
             fresh_router
             (disk [ (Router.rules_file, Json.dump_indent2 Router.default_rules);
                     (Router.chat_file, "Hello") ])
             "Hello"); run_it.
  - apply (proj2 a_start_forgets_what_was_seen (answering "Use a lock.")
             (Some "sk-ant-test") "helper"
             (disk [ (Agent.inbox_file "helper", "How do I avoid the race?") ])
             fresh_helper
             (put_file (Agent.prompt_file "helper") (Agent.get_default_prompt "helper")
                (put_file Agent.config_file
                   (Json.dump_indent2 Agent.default_assignments)
                   (disk [ (Agent.inbox_file "helper", "How do I avoid the race?") ])))
             "How do I avoid the race?"); run_it.
Defined.

(** A code review request on a disk whose log already has a line. *)
Lemma answered_routing_is_logged_once_witness :
  let w := disk [ (Router.chat_file, "Please review my patch");
                  (Router.log_file, "an older line" ++ Text.nl) ] in
  exists (self' : Router.ClaudeStackRouter) (w' : world) (intent target : string),
    Router.process_chat_input (answering "code_review") fresh_router w
    = Ret (true, self') w' /\
    intent = classified (answering "code_review") fresh_router
               (message_of "Please review my patch") /\
    target = default "helper" (Router.routing_rules fresh_router !! intent) /\
    files w' !! Router.inbox_file target
    = Some (Router.routed_content (strftime (clock w)) intent
              (message_of "Please review my patch")) /\
    files w' !! Router.log_file
    = Some (default "" (files w !! Router.log_file) ++
            "[" ++ strftime (S (clock w)) ++ "] " ++
            ("[" ++ strftime (clock w) ++ "] Routed user query (intent: " ++ intent ++
             ") to " ++ target) ++ Text.nl).
Proof.
  cbv zeta.
  apply (answered_routing_is_logged_once (answering "code_review") fresh_router
           (disk [ (Router.chat_file, "Please review my patch");
                   (Router.log_file, "an older line" ++ Text.nl) ])
           "Please review my patch" "code_review"); run_it.
Defined.

(** The same request while the service is down. *)
Lemma failed_classification_is_logged_and_routed_witness :
  let w := disk [ (Router.chat_file, "Please review my patch") ] in
  exists (self' : Router.ClaudeStackRouter) (w' : world) (target : string),
    Router.process_chat_input (failing "Connection error.") fresh_router w
    = Ret (true, self') w' /\
    target = default "helper" (Router.routing_rules fresh_router !! "general") /\
    files w' !! Router.inbox_file target
    = Some (Router.routed_content (strftime (S (clock w))) "general"
              (message_of "Please review my patch")) /\
    files w' !! Router.log_file
    = Some ((default "" (files w !! Router.log_file) ++
             "[" ++ strftime (clock w) ++ "] " ++
             ("Error classifying intent: " ++ "Connection error.") ++ Text.nl) ++
            "[" ++ strftime (S (S (clock w))) ++ "] " ++
            ("[" ++ strftime (S (clock w)) ++ "] Routed user query (intent: general) to "
             ++ target) ++ Text.nl).
Proof.
  cbv zeta.
  apply (failed_classification_is_logged_and_routed (failing "Connection error.")
           fresh_router (disk [ (Router.chat_file, "Please review my patch") ])
           "Please review my patch" "Connection error."); run_it.
Defined.

(** The helper, a question, and a service that answers. *)
Lemma successful_generation_is_written_to_outbox_witness :
  let w := disk [ (Agent.inbox_file "helper", "How do I avoid the race?");
                  (Agent.outbox_file "helper", "an earlier answer") ] in
  exists (w' : world) (page : string),
    Agent.check_for_input (answering "Use a lock.") fresh_helper w
    = Ret (true, remembering fresh_helper
                   (Some (md5_hexdigest "How do I avoid the race?"))) w' /\
    files w' !! Agent.outbox_file (Agent.agent_name fresh_helper) = Some page /\
    page = Agent.output_content fresh_helper (strftime (S (S (S (clock w)))))
             "Use a lock." /\
    contains "Use a lock." page /\
    contains "*Generated by ClaudeStack Agent Runner*" page.
Proof.
  cbv zeta.
  apply (successful_generation_is_written_to_outbox (answering "Use a lock.")
           fresh_helper
           (disk [ (Agent.inbox_file "helper", "How do I avoid the race?");
                   (Agent.outbox_file "helper", "an earlier answer") ])
           "How do I avoid the race?" "Use a lock."); run_it.
Defined.

(** The same cycle, seen from the log. *)
Lemma successful_generation_is_recorded_witness :
  let w := disk [ (Agent.inbox_file "helper", "How do I avoid the race?") ] in
  exists w',
    Agent.check_for_input (answering "Use a lock.") fresh_helper w
    = Ret (true, remembering fresh_helper
                   (Some (md5_hexdigest "How do I avoid the race?"))) w' /\
    files w' !! Agent.log_file
    = Some (default "" (files w !! Agent.log_file) ++
            Agent.log_entry fresh_helper (strftime (S (S (clock w))))
              (seconds_2f (clock w) (S (clock w)))
              (message_of "How do I avoid the race?") "Use a lock.").
Proof.
  cbv zeta.
  apply (successful_generation_is_recorded (answering "Use a lock.") fresh_helper
           (disk [ (Agent.inbox_file "helper", "How do I avoid the race?") ])
           "How do I avoid the race?" "Use a lock."); run_it.
Defined.

(** The persona of the coder, on an empty disk. *)
Lemma persona_is_stripped_after_first_start_witness :
  exists w1 : world,
    Agent.load_prompt_template "coder" (disk [])
    = Ret (Agent.get_default_prompt "coder") w1 /\
    files w1 !! Agent.prompt_file "coder" = Some (Agent.get_default_prompt "coder") /\
    Agent.load_prompt_template "coder" w1
    = Ret (Text.strip (Text.read_text (Agent.get_default_prompt "coder"))) w1 /\
    Text.strip (Text.read_text (Agent.get_default_prompt "coder"))
    <> Agent.get_default_prompt "coder".
Proof.
  apply (persona_is_stripped_after_first_start "coder" (disk [])); run_it.
Defined.

(** Linux, every terminal starts, the chat agent is excluded. *)
Lemma launch_all_on_linux_witness :
  exists launched : bool,
    Launcher.launch_all all_start ready linux_launcher Launcher.default_agents ["chat"] []
    = Launcher.Returned launched
        ([] ++ Launcher.router_gnome_command linux_launcher ::
           map (Launcher.gnome_command linux_launcher)
             (filter (fun agent => agent ∉ ["chat"]) Launcher.default_agents)) /\
    (launched = true <->
     exists (i : nat) (agent : string),
       filter (fun agent => agent ∉ ["chat"]) Launcher.default_agents !! i = Some agent /\
       all_start (S (length ([] : list Launcher.command)) + i)
         (Launcher.gnome_command linux_launcher agent) = None).
Proof.
  apply (launch_all_on_linux all_start ready linux_launcher Launcher.default_agents
           ["chat"] []); run_it.
Defined.

(** A launcher without the credential. *)
Lemma launch_all_starts_nothing_when_it_cannot_witness :
  Launcher.launch_all all_start
    {| Launcher.agent_runner_exists := true; Launcher.anthropic_api_key := None |}
    linux_launcher Launcher.default_agents [] []
  = Launcher.Returned false [].
Proof.
  apply (launch_all_starts_nothing_when_it_cannot all_start
           {| Launcher.agent_runner_exists := true; Launcher.anthropic_api_key := None |}
           linux_launcher Launcher.default_agents [] []).
  right. left. reflexivity.
Defined.

(** macOS, iTerm2 is not running and Terminal takes the agent. *)
Lemma launch_agent_on_macos_witness :
  let sp : Launcher.subprocess :=
    fun n _ => match n with O => Some Launcher.CalledProcessError | _ => None end in
  Launcher.launch_agent sp macos_launcher "coder" []
  = Launcher.Returned true
      [ ["osascript"; "-e"; Launcher.iterm_script macos_launcher "coder"];
        ["osascript"; "-e"; Launcher.terminal_script macos_launcher "coder"] ].
Proof.
  cbv zeta.
  etransitivity;
    [apply (launch_agent_on_macos
              (fun n _ => match n with O => Some Launcher.CalledProcessError
                                  | _ => None end)
              macos_launcher "coder" []); reflexivity|].
  reflexivity.
Defined.

(** Two hosts without their terminal program. *)
Lemma missing_terminal_program_witness :
  Launcher.main none_found ready macos_launcher ["coder"] [] false []
  = Launcher.Raised Launcher.FileNotFoundError
      [["osascript"; "-e"; Launcher.router_script macos_launcher]] /\
  Launcher.launch_all none_found ready linux_launcher ["coder"; "helper"] ["helper"] []
  = Launcher.Returned false
      (Launcher.router_gnome_command linux_launcher ::
         map (Launcher.gnome_command linux_launcher)
           (filter (fun agent => agent ∉ ["helper"]) ["coder"; "helper"])).
Proof.
  split.
  - apply (proj1 (missing_terminal_program none_found ready macos_launcher
                    ["coder"] [] ltac:(reflexivity) ltac:(reflexivity))).
    reflexivity.
  - apply (proj2 (missing_terminal_program none_found ready linux_launcher
                    ["coder"; "helper"] ["helper"]
                    ltac:(reflexivity) ltac:(reflexivity))).
    reflexivity.
Defined.

(** The tester is excluded on macOS: its iTerm2 script is not among the
    calls. *)
Lemma excluded_agent_is_never_launched_witness :
  exists added : list Launcher.command,
    calls_of (Launcher.launch_all all_start ready macos_launcher
                ["coder"; "tester"] ["tester"] [])
    = ([] ++ added)%list /\
    ["osascript"; "-e"; Launcher.iterm_script macos_launcher "tester"] ∉ added.
Proof.
  apply (excluded_agent_is_never_launched all_start ready macos_launcher
           ["coder"; "tester"] ["tester"] [] "tester").
  - apply list_elem_of_here.
  - apply list_elem_of_here.
Defined.

(** The set-up on a bare host, then the router and the chat agent. *)
Lemma sample_input_goes_to_the_chat_agent_witness :
  exists (ok : bool) (setup : Setup.ClaudeStackSetup) (w1 : world),
    Setup.run bare_host (disk []) = (ok, setup, w1) /\
    files w1 !! Agent.inbox_file "chat" = Some Setup.sample_content /\
    Router.process_chat_input (answering "general") fresh_router w1
    = Ret (false, fresh_router) w1 /\
    exists (agent' : Agent.ClaudeStackAgent) (w2 : world),
      Agent.check_for_input (answering "Welcome.") (fresh_agent "chat") w1
      = Ret (true, agent') w2 /\
      Agent.last_input_hash agent' = Some (md5_hexdigest Setup.sample_content).
Proof.
  apply (sample_input_goes_to_the_chat_agent bare_host (answering "general")
           (answering "Welcome.") fresh_router (fresh_agent "chat") (disk []));
    run_it.
Defined.

End FurtherRuns.
